(** * LI-Scraper dashboard: the API client and the list-population polling workflow

    A shallow embedding of [frontend/lib/api.ts] and of the stateful part of
    [frontend/app/lists/page.tsx] (the processing classifier, the polling
    effect and the mutation handlers), followed by the properties that the
    design document states about them.

    Conventions.
    - an optional field of a TypeScript interface is an [option]; [None]
      stands for a field that is absent (reads as [undefined]) or [null];
    - a point in time is the number of milliseconds since the epoch, as
      [Date.prototype.getTime] returns it; an invalid date, whose time value
      is [NaN], is [None];
    - asynchronous code is cut at its [await]: the part before and the part
      after are separate transitions, ordered by the event loop. *)

From Stdlib Require Import ZArith QArith Ascii String.
From stdpp Require Import gmap strings list pretty.

Open Scope Z_scope.
Open Scope string_scope.
Open Scope list_scope.

(** ** The fragment of JavaScript the two files rely on *)

Module Js.

(** A parsed JSON document. Numbers are the safe integers, those of
    magnitude below 2^53, which a double holds exactly and prints digit for
    digit (status payloads and counters are of this kind); an object is the
    finite map of its own properties. *)
#[warnings="-register-all"]
Inductive json : Type :=
| JNull
| JBool (b : bool)
| JNum (n : Z)
| JStr (s : string)
| JArr (items : list json)
| JObj (fields : gmap string json).

(** What an expression evaluates to: a JSON value or [undefined]. *)
Definition value : Type := option json.

(** ToBoolean, as used by [||], [!] and [if]. *)
Definition truthy (v : value) : bool :=
  match v with
  | None => false
  | Some JNull => false
  | Some (JBool b) => b
  | Some (JNum n) => negb (n =? 0)%Z
  | Some (JStr s) => negb (String.eqb s "")
  | Some (JArr _) => true
  | Some (JObj _) => true
  end.

(** ToString on a JSON value ([Array.prototype.join] prints [null] as the
    empty string, a plain object prints as "[object Object]"). *)
Fixpoint to_string (j : json) : string :=
  match j with
  | JNull => "null"
  | JBool true => "true"
  | JBool false => "false"
  | JNum n => pretty n
  | JStr s => s
  | JArr items =>
      String.concat ","
        (map (fun x => match x with JNull => "" | _ => to_string x end) items)
  | JObj _ => "[object Object]"
  end.

(** ToString on what an expression evaluates to. *)
Definition value_to_string (v : value) : string :=
  match v with
  | Some j => to_string j
  | None => "undefined"
  end.

(** Reading property [key] of a value that is neither [null] nor
    [undefined]: an own property of an object, [undefined] otherwise (no
    name used here is an array index or a prototype property). *)
Definition get (key : string) (j : json) : value :=
  match j with
  | JObj fields => fields !! key
  | _ => None
  end.

(** A thrown value, as [catch] sees it: an [Error] instance with its
    message, or something that is not an [Error]. *)
Inductive thrown : Type :=
| ErrorObj (message : string)
| NonError.

(** The settlement of a promise. *)
Inductive settled (A : Type) : Type :=
| Resolved (a : A)
| Rejected (e : thrown).
Arguments Resolved {A} a.
Arguments Rejected {A} e.

(** Strings are sequences of UTF-8 bytes. [String.prototype.trim] strips
    the white space and the line terminators of ECMAScript from both ends.
    In one byte these are tab, line feed, vertical tab, form feed, carriage
    return and space. *)
Definition is_space (c : ascii) : bool :=
  let n := nat_of_ascii c in
  ((9 <=? n) && (n <=? 13) || (n =? 32))%nat.

(** In two bytes: the no-break space U+00A0. *)
Definition is_space2 (a b : ascii) : bool :=
  ((nat_of_ascii a =? 194) && (nat_of_ascii b =? 160))%nat.

(** In three bytes: U+1680, U+2000 to U+200A, the line and paragraph
    separators U+2028 and U+2029, U+202F, U+205F, U+3000 and the byte order
    mark U+FEFF. *)
Definition is_space3 (a b c : ascii) : bool :=
  let x := nat_of_ascii a in
  let y := nat_of_ascii b in
  let z := nat_of_ascii c in
  ((x =? 225) && (y =? 154) && (z =? 128)
   || (x =? 226) && (y =? 128)
      && ((128 <=? z) && (z <=? 138) || (z =? 168) || (z =? 169) || (z =? 175))
   || (x =? 226) && (y =? 129) && (z =? 159)
   || (x =? 227) && (y =? 128) && (z =? 128)
   || (x =? 239) && (y =? 187) && (z =? 191))%nat.

(** Dropping these characters from the front of a string; [backwards]
    tells that the string is read from its end, so that the bytes of a
    character come last byte first. *)
Fixpoint strip (backwards : bool) (s : string) : string :=
  match s with
  | String a rest =>
      if is_space a then strip backwards rest
      else
        match rest with
        | String b rest2 =>
            if (if backwards then is_space2 b a else is_space2 a b)
            then strip backwards rest2
            else
              match rest2 with
              | String c rest3 =>
                  if (if backwards then is_space3 c b a else is_space3 a b c)
                  then strip backwards rest3
                  else s
              | EmptyString => s
              end
        | EmptyString => s
        end
  | EmptyString => EmptyString
  end.

Definition trim_start (s : string) : string := strip false s.

Definition trim (s : string) : string :=
  String.rev (strip true (String.rev (trim_start s))).

(** The messages of the errors the engine itself raises; their wording is
    the engine's. *)
Record Engine : Type := {
  null_read_message : string -> string;
  json_syntax_message : string;
}.

End Js.

(** ** [frontend/lib/api.ts] *)

Module Api.
Import Js.

(** [process.env] at build time. *)
Record Env : Type := {
  NEXT_PUBLIC_API_URL : option string;
  NEXT_PUBLIC_API_KEY : option string;
}.

(** [RequestInit], with the members the client sets. The body is the value
    handed to [JSON.stringify]. *)
Record RequestInit : Type := {
  method : option string;
  headers : option (gmap string string);
  body : option json;
}.

(** What reaches [fetch]. *)
Record Request : Type := {
  req_url : string;
  req_method : option string;
  req_headers : gmap string string;
  req_body : option json;
}.

(** A [Response]; [json_body] is [None] when [response.json()] rejects (the
    body is not a JSON document). *)
Record Response : Type := {
  ok : bool;
  status : Z;
  statusText : string;
  json_body : option json;
}.

(** [s || ''] on an environment variable. *)
Definition or_empty (s : option string) : string :=
  match s with
  | Some v => v
  | None => ""
  end.

Section Client.
Variable env : Env.
Variable engine : Engine.

Definition API_BASE_URL : string := or_empty (NEXT_PUBLIC_API_URL env).
Definition API_KEY : string := or_empty (NEXT_PUBLIC_API_KEY env).

(** The first half of [apiRequest]: the request given to [fetch]. A later
    spread overrides an earlier key, so the caller's headers win over the
    default content type; the key header is written last. *)
Definition apiRequest_request (endpoint : string) (options : RequestInit)
  : Request :=
  let url := API_BASE_URL +:+ endpoint in
  let headers0 : gmap string string :=
    default ∅ (headers options) ∪ {[ "Content-Type" := "application/json" ]} in
  let headers1 :=
    if negb (String.eqb API_KEY "")
    then <[ "X-API-KEY" := API_KEY ]> headers0
    else headers0 in
  {| req_url := url;
     req_method := method options;
     req_headers := headers1;
     req_body := body options |}.

(** [await response.json().catch(() => ({ detail: response.statusText }))] *)
Definition error_document (r : Response) : json :=
  match json_body r with
  | Some j => j
  | None => JObj {[ "detail" := JStr (statusText r) ]}
  end.

(** [throw new Error(error.detail || `HTTP error! status: ${response.status}`)];
    on a [null] document the property read itself throws. *)
Definition error_of (r : Response) : thrown :=
  match error_document r with
  | JNull => ErrorObj (null_read_message engine "detail")
  | doc =>
      let detail := get "detail" doc in
      if truthy detail
      then ErrorObj (value_to_string detail)
      else ErrorObj ("HTTP error! status: " +:+ pretty (status r))
  end.

(** The second half of [apiRequest]: what the caller's [await] sees once
    [fetch] has settled. A rejected [fetch] is rethrown as it is. *)
Definition apiRequest_settle (fetched : settled Response) : settled json :=
  match fetched with
  | Rejected e => Rejected e
  | Resolved r =>
      if negb (ok r)
      then Rejected (error_of r)
      else match json_body r with
           | Some j => Resolved j
           | None => Rejected (ErrorObj (json_syntax_message engine))
           end
  end.

(** [apiRequest], with [fetch] the network as the request finds it. *)
Definition apiRequest (fetch : Request -> settled Response)
  (endpoint : string) (options : RequestInit) : settled json :=
  apiRequest_settle (fetch (apiRequest_request endpoint options)).

End Client.

(** The [List] interface. [created_at] is declared mandatory, but the page
    tests for it, so it is optional here. *)
Record List : Type := {
  id : string;
  name : string;
  search_url : option string;
  profile_count : option Z;
  count : option Z;
  created_at : option string;
}.

(** The [PopulateListRequest] interface. *)
Module PopulateListRequest.
Record t : Type := {
  search_url : string;
  profile_limit : option Z;
  collect_only : option bool;
  send_note : option bool;
  note_text : option string;
}.
End PopulateListRequest.

(** [JSON.stringify] drops the members that are [undefined]. *)
Definition optional_field {A : Type} (key : string) (inj : A -> json)
  (v : option A) (fields : gmap string json) : gmap string json :=
  match v with
  | Some a => <[ key := inj a ]> fields
  | None => fields
  end.

Definition populate_body (d : PopulateListRequest.t) : json :=
  JObj (optional_field "profile_limit" JNum (PopulateListRequest.profile_limit d)
       (optional_field "collect_only" JBool (PopulateListRequest.collect_only d)
       (optional_field "send_note" JBool (PopulateListRequest.send_note d)
       (optional_field "note_text" JStr (PopulateListRequest.note_text d)
       {[ "search_url" := JStr (PopulateListRequest.search_url d) ]})))).

Definition sender_body (name : string) (storage_state : option string) : json :=
  JObj (optional_field "storage_state" JStr storage_state {[ "name" := JStr name ]}).

(** The members of the exported [api] object, with their arguments. *)
Inductive ApiCall : Type :=
| health
| getLists
| getList (listId : string)
| getListProspects (listId : string)
| updateList (listId : string) (name : string)
| deleteList (listId : string)
| populateList (data : PopulateListRequest.t)
| sendCampaign (limit : option Z) (default_dm : option string)
| verifyConnections (limit : option Z)
| getSenders
| toggleSender (senderId : string)
| updateSender (senderId : string) (name : string) (storage_state : option string)
| createSender (name : string) (storage_state : option string).

Definition init (m : string) (b : option json) : RequestInit :=
  {| method := Some m; headers := None; body := b |}.

(** The endpoint and the options each member passes to [apiRequest]. *)
Definition api (c : ApiCall) : string * RequestInit :=
  match c with
  | health => ("/health", init "GET" None)
  | getLists => ("/lists", init "GET" None)
  | getList listId => ("/lists/" +:+ listId, init "GET" None)
  | getListProspects listId =>
      ("/lists/" +:+ listId +:+ "/prospects", init "GET" None)
  | updateList listId name =>
      ("/lists/" +:+ listId, init "PATCH" (Some (JObj {[ "name" := JStr name ]})))
  | deleteList listId => ("/lists/" +:+ listId, init "DELETE" None)
  | populateList data => ("/lists/populate", init "POST" (Some (populate_body data)))
  | sendCampaign limit default_dm =>
      ("/campaigns/send",
       init "POST" (Some (JObj (optional_field "limit" JNum limit
                               (optional_field "default_dm" JStr default_dm ∅)))))
  | verifyConnections limit =>
      ("/connections/verify",
       init "POST" (Some (JObj (optional_field "limit" JNum limit ∅))))
  | getSenders => ("/senders", init "GET" None)
  | toggleSender senderId =>
      ("/senders/" +:+ senderId +:+ "/toggle", init "PATCH" None)
  | updateSender senderId name storage_state =>
      ("/senders/" +:+ senderId, init "PATCH" (Some (sender_body name storage_state)))
  | createSender name storage_state =>
      ("/senders", init "POST" (Some (sender_body name storage_state)))
  end.

(** The request a member of [api] issues. *)
Definition request_of (env : Env) (c : ApiCall) : Request :=
  apiRequest_request env (api c).1 (api c).2.

(** The [detail] member of a response body, when the body is a JSON
    document that has one. *)
Definition body_detail (r : Response) : value :=
  json_body r ≫= get "detail".

(** The error message as the design document words it, to be compared with
    [error_of]: the [detail] member when present, and otherwise some
    message [derive] obtained from the status text. *)
Definition documented_message (derive : string -> string) (r : Response)
  : string :=
  match body_detail r with
  | Some d => to_string d
  | None => derive (statusText r)
  end.

End Api.

(** ** [frontend/app/lists/page.tsx] *)

Module ListsPage.
Import Js Api.

(** *** The processing classifier *)

Section Classifier.
(** [new Date(s).getTime()]: the time value of a date string, [None] for an
    invalid date. *)
Variable parseDate : string -> option Z.

(** [x < y] on numbers, where [None] is [NaN]. *)
Definition number_lt (x : option Q) (y : Q) : bool :=
  match x with
  | Some q => negb (Qle_bool y q)
  | None => false
  end.

(** [(now.getTime() - createdAt.getTime()) / (1000 * 60)]. The time values
    are integers, so the subtraction is exact; the quotient is taken in the
    rationals, and rounding it to a double changes no comparison with 10. *)
Definition diffMinutes (now : Z) (createdAt : option Z) : option Q :=
  match createdAt with
  | Some t => Some (inject_Z (now - t) / inject_Z (1000 * 60))%Q
  | None => None
  end.

(** [list.profile_count !== 0] *)
Definition profile_count_not_zero (list : List) : bool :=
  match profile_count list with
  | Some n => negb (n =? 0)%Z
  | None => true
  end.

(** [isListProcessing], at the instant [now] that [new Date()] reads. *)
Definition isListProcessing (now : Z) (list : List) : bool :=
  if profile_count_not_zero list then false
  else
    match created_at list with
    | Some s =>
        if negb (String.eqb s "")
        then
          let createdAt := parseDate s in
          number_lt (diffMinutes now createdAt) 10
        else false
    | None => false
    end.

End Classifier.

(** *** The state of the page *)

(** The [useState] cells of [ListsPage]. *)
Record View : Type := {
  lists : list List;
  isModalOpen : bool;
  isLoading : bool;
  isLoadingLists : bool;
  searchUrl : string;
  profileLimit : Z;
  collectOnly : bool;
  sendNote : bool;
  noteText : string;
  enabledSendersCount : Z;
  renameDialogOpen : bool;
  listToRename : option List;
  newListName : string;
  isRenaming : bool;
  deleteDialogOpen : bool;
  listToDelete : option List;
  isDeleting : bool;
}.

(** The state setters. *)
Definition setLists (x : list List) (v : View) : View :=
  {| lists := x; isModalOpen := isModalOpen v; isLoading := isLoading v;
     isLoadingLists := isLoadingLists v; searchUrl := searchUrl v;
     profileLimit := profileLimit v; collectOnly := collectOnly v;
     sendNote := sendNote v; noteText := noteText v;
     enabledSendersCount := enabledSendersCount v;
     renameDialogOpen := renameDialogOpen v; listToRename := listToRename v;
     newListName := newListName v; isRenaming := isRenaming v;
     deleteDialogOpen := deleteDialogOpen v; listToDelete := listToDelete v;
     isDeleting := isDeleting v |}.

Definition setIsModalOpen (x : bool) (v : View) : View :=
  {| lists := lists v; isModalOpen := x; isLoading := isLoading v;
     isLoadingLists := isLoadingLists v; searchUrl := searchUrl v;
     profileLimit := profileLimit v; collectOnly := collectOnly v;
     sendNote := sendNote v; noteText := noteText v;
     enabledSendersCount := enabledSendersCount v;
     renameDialogOpen := renameDialogOpen v; listToRename := listToRename v;
     newListName := newListName v; isRenaming := isRenaming v;
     deleteDialogOpen := deleteDialogOpen v; listToDelete := listToDelete v;
     isDeleting := isDeleting v |}.

Definition setIsLoading (x : bool) (v : View) : View :=
  {| lists := lists v; isModalOpen := isModalOpen v; isLoading := x;
     isLoadingLists := isLoadingLists v; searchUrl := searchUrl v;
     profileLimit := profileLimit v; collectOnly := collectOnly v;
     sendNote := sendNote v; noteText := noteText v;
     enabledSendersCount := enabledSendersCount v;
     renameDialogOpen := renameDialogOpen v; listToRename := listToRename v;
     newListName := newListName v; isRenaming := isRenaming v;
     deleteDialogOpen := deleteDialogOpen v; listToDelete := listToDelete v;
     isDeleting := isDeleting v |}.

Definition setIsLoadingLists (x : bool) (v : View) : View :=
  {| lists := lists v; isModalOpen := isModalOpen v;
     isLoading := isLoading v; isLoadingLists := x; searchUrl := searchUrl v;
     profileLimit := profileLimit v; collectOnly := collectOnly v;
     sendNote := sendNote v; noteText := noteText v;
     enabledSendersCount := enabledSendersCount v;
     renameDialogOpen := renameDialogOpen v; listToRename := listToRename v;
     newListName := newListName v; isRenaming := isRenaming v;
     deleteDialogOpen := deleteDialogOpen v; listToDelete := listToDelete v;
     isDeleting := isDeleting v |}.

Definition setSearchUrl (x : string) (v : View) : View :=
  {| lists := lists v; isModalOpen := isModalOpen v;
     isLoading := isLoading v; isLoadingLists := isLoadingLists v;
     searchUrl := x; profileLimit := profileLimit v;
     collectOnly := collectOnly v; sendNote := sendNote v;
     noteText := noteText v; enabledSendersCount := enabledSendersCount v;
     renameDialogOpen := renameDialogOpen v; listToRename := listToRename v;
     newListName := newListName v; isRenaming := isRenaming v;
     deleteDialogOpen := deleteDialogOpen v; listToDelete := listToDelete v;
     isDeleting := isDeleting v |}.

Definition setProfileLimit (x : Z) (v : View) : View :=
  {| lists := lists v; isModalOpen := isModalOpen v;
     isLoading := isLoading v; isLoadingLists := isLoadingLists v;
     searchUrl := searchUrl v; profileLimit := x;
     collectOnly := collectOnly v; sendNote := sendNote v;
     noteText := noteText v; enabledSendersCount := enabledSendersCount v;
     renameDialogOpen := renameDialogOpen v; listToRename := listToRename v;
     newListName := newListName v; isRenaming := isRenaming v;
     deleteDialogOpen := deleteDialogOpen v; listToDelete := listToDelete v;
     isDeleting := isDeleting v |}.

Definition setCollectOnly (x : bool) (v : View) : View :=
  {| lists := lists v; isModalOpen := isModalOpen v;
     isLoading := isLoading v; isLoadingLists := isLoadingLists v;
     searchUrl := searchUrl v; profileLimit := profileLimit v;
     collectOnly := x; sendNote := sendNote v; noteText := noteText v;
     enabledSendersCount := enabledSendersCount v;
     renameDialogOpen := renameDialogOpen v; listToRename := listToRename v;
     newListName := newListName v; isRenaming := isRenaming v;
     deleteDialogOpen := deleteDialogOpen v; listToDelete := listToDelete v;
     isDeleting := isDeleting v |}.

Definition setSendNote (x : bool) (v : View) : View :=
  {| lists := lists v; isModalOpen := isModalOpen v;
     isLoading := isLoading v; isLoadingLists := isLoadingLists v;
     searchUrl := searchUrl v; profileLimit := profileLimit v;
     collectOnly := collectOnly v; sendNote := x; noteText := noteText v;
     enabledSendersCount := enabledSendersCount v;
     renameDialogOpen := renameDialogOpen v; listToRename := listToRename v;
     newListName := newListName v; isRenaming := isRenaming v;
     deleteDialogOpen := deleteDialogOpen v; listToDelete := listToDelete v;
     isDeleting := isDeleting v |}.

Definition setNoteText (x : string) (v : View) : View :=
  {| lists := lists v; isModalOpen := isModalOpen v;
     isLoading := isLoading v; isLoadingLists := isLoadingLists v;
     searchUrl := searchUrl v; profileLimit := profileLimit v;
     collectOnly := collectOnly v; sendNote := sendNote v; noteText := x;
     enabledSendersCount := enabledSendersCount v;
     renameDialogOpen := renameDialogOpen v; listToRename := listToRename v;
     newListName := newListName v; isRenaming := isRenaming v;
     deleteDialogOpen := deleteDialogOpen v; listToDelete := listToDelete v;
     isDeleting := isDeleting v |}.

Definition setEnabledSendersCount (x : Z) (v : View) : View :=
  {| lists := lists v; isModalOpen := isModalOpen v;
     isLoading := isLoading v; isLoadingLists := isLoadingLists v;
     searchUrl := searchUrl v; profileLimit := profileLimit v;
     collectOnly := collectOnly v; sendNote := sendNote v;
     noteText := noteText v; enabledSendersCount := x;
     renameDialogOpen := renameDialogOpen v; listToRename := listToRename v;
     newListName := newListName v; isRenaming := isRenaming v;
     deleteDialogOpen := deleteDialogOpen v; listToDelete := listToDelete v;
     isDeleting := isDeleting v |}.

Definition setRenameDialogOpen (x : bool) (v : View) : View :=
  {| lists := lists v; isModalOpen := isModalOpen v;
     isLoading := isLoading v; isLoadingLists := isLoadingLists v;
     searchUrl := searchUrl v; profileLimit := profileLimit v;
     collectOnly := collectOnly v; sendNote := sendNote v;
     noteText := noteText v; enabledSendersCount := enabledSendersCount v;
     renameDialogOpen := x; listToRename := listToRename v;
     newListName := newListName v; isRenaming := isRenaming v;
     deleteDialogOpen := deleteDialogOpen v; listToDelete := listToDelete v;
     isDeleting := isDeleting v |}.

Definition setListToRename (x : option List) (v : View) : View :=
  {| lists := lists v; isModalOpen := isModalOpen v;
     isLoading := isLoading v; isLoadingLists := isLoadingLists v;
     searchUrl := searchUrl v; profileLimit := profileLimit v;
     collectOnly := collectOnly v; sendNote := sendNote v;
     noteText := noteText v; enabledSendersCount := enabledSendersCount v;
     renameDialogOpen := renameDialogOpen v; listToRename := x;
     newListName := newListName v; isRenaming := isRenaming v;
     deleteDialogOpen := deleteDialogOpen v; listToDelete := listToDelete v;
     isDeleting := isDeleting v |}.

Definition setNewListName (x : string) (v : View) : View :=
  {| lists := lists v; isModalOpen := isModalOpen v;
     isLoading := isLoading v; isLoadingLists := isLoadingLists v;
     searchUrl := searchUrl v; profileLimit := profileLimit v;
     collectOnly := collectOnly v; sendNote := sendNote v;
     noteText := noteText v; enabledSendersCount := enabledSendersCount v;
     renameDialogOpen := renameDialogOpen v; listToRename := listToRename v;
     newListName := x; isRenaming := isRenaming v;
     deleteDialogOpen := deleteDialogOpen v; listToDelete := listToDelete v;
     isDeleting := isDeleting v |}.

Definition setIsRenaming (x : bool) (v : View) : View :=
  {| lists := lists v; isModalOpen := isModalOpen v;
     isLoading := isLoading v; isLoadingLists := isLoadingLists v;
     searchUrl := searchUrl v; profileLimit := profileLimit v;
     collectOnly := collectOnly v; sendNote := sendNote v;
     noteText := noteText v; enabledSendersCount := enabledSendersCount v;
     renameDialogOpen := renameDialogOpen v; listToRename := listToRename v;
     newListName := newListName v; isRenaming := x;
     deleteDialogOpen := deleteDialogOpen v; listToDelete := listToDelete v;
     isDeleting := isDeleting v |}.

Definition setDeleteDialogOpen (x : bool) (v : View) : View :=
  {| lists := lists v; isModalOpen := isModalOpen v;
     isLoading := isLoading v; isLoadingLists := isLoadingLists v;
     searchUrl := searchUrl v; profileLimit := profileLimit v;
     collectOnly := collectOnly v; sendNote := sendNote v;
     noteText := noteText v; enabledSendersCount := enabledSendersCount v;
     renameDialogOpen := renameDialogOpen v; listToRename := listToRename v;
     newListName := newListName v; isRenaming := isRenaming v;
     deleteDialogOpen := x; listToDelete := listToDelete v;
     isDeleting := isDeleting v |}.

Definition setListToDelete (x : option List) (v : View) : View :=
  {| lists := lists v; isModalOpen := isModalOpen v;
     isLoading := isLoading v; isLoadingLists := isLoadingLists v;
     searchUrl := searchUrl v; profileLimit := profileLimit v;
     collectOnly := collectOnly v; sendNote := sendNote v;
     noteText := noteText v; enabledSendersCount := enabledSendersCount v;
     renameDialogOpen := renameDialogOpen v; listToRename := listToRename v;
     newListName := newListName v; isRenaming := isRenaming v;
     deleteDialogOpen := deleteDialogOpen v; listToDelete := x;
     isDeleting := isDeleting v |}.

Definition setIsDeleting (x : bool) (v : View) : View :=
  {| lists := lists v; isModalOpen := isModalOpen v;
     isLoading := isLoading v; isLoadingLists := isLoadingLists v;
     searchUrl := searchUrl v; profileLimit := profileLimit v;
     collectOnly := collectOnly v; sendNote := sendNote v;
     noteText := noteText v; enabledSendersCount := enabledSendersCount v;
     renameDialogOpen := renameDialogOpen v; listToRename := listToRename v;
     newListName := newListName v; isRenaming := isRenaming v;
     deleteDialogOpen := deleteDialogOpen v; listToDelete := listToDelete v;
     isDeleting := x |}.

(** The cells as the first render initialises them. *)
Definition initial_view : View :=
  {| lists := [];
     isModalOpen := false;
     isLoading := false;
     isLoadingLists := true;
     searchUrl := "";
     profileLimit := 20;
     collectOnly := false;
     sendNote := false;
     noteText := "";
     enabledSendersCount := 0;
     renameDialogOpen := false;
     listToRename := None;
     newListName := "";
     isRenaming := false;
     deleteDialogOpen := false;
     listToDelete := None;
     isDeleting := false |}.

(** A toast shown to the user. *)
Record Toast : Type := {
  title : string;
  description : string;
  variant : option string;
}.

(** Everything the page can observe or change: its cells, the closure of
    the polling effect ([processingListIds], [isPolling], [pollInterval]),
    and the traces it leaves outside (toasts, backend calls, the console).
    [pollInterval] is the delay of the registered interval timer, [None]
    when no timer is registered; [pending] counts the poll requests whose
    callback is suspended at its [await]; [listWrites] records the argument
    of every [setLists]. *)
Record World : Type := {
  view : View;
  listWrites : list (list List);
  processingListIds : list string;
  isPolling : bool;
  pollInterval : option Z;
  pending : nat;
  toasts : list Toast;
  calls : list ApiCall;
  console : list string;
}.

Definition with_view (f : View -> View) (w : World) : World :=
  {| view := f (view w);
     listWrites := listWrites w;
     processingListIds := processingListIds w;
     isPolling := isPolling w;
     pollInterval := pollInterval w;
     pending := pending w;
     toasts := toasts w;
     calls := calls w;
     console := console w |}.

(** [setLists(l)] *)
Definition write_lists (l : list List) (w : World) : World :=
  {| view := setLists l (view w);
     listWrites := listWrites w ++ [l];
     processingListIds := processingListIds w;
     isPolling := isPolling w;
     pollInterval := pollInterval w;
     pending := pending w;
     toasts := toasts w;
     calls := calls w;
     console := console w |}.

Definition with_poll (ids : list string) (active : bool) (timer : option Z)
  (w : World) : World :=
  {| view := view w;
     listWrites := listWrites w;
     processingListIds := ids;
     isPolling := active;
     pollInterval := timer;
     pending := pending w;
     toasts := toasts w;
     calls := calls w;
     console := console w |}.

Definition with_pending (n : nat) (w : World) : World :=
  {| view := view w;
     listWrites := listWrites w;
     processingListIds := processingListIds w;
     isPolling := isPolling w;
     pollInterval := pollInterval w;
     pending := n;
     toasts := toasts w;
     calls := calls w;
     console := console w |}.

Definition add_toast (t : Toast) (w : World) : World :=
  {| view := view w;
     listWrites := listWrites w;
     processingListIds := processingListIds w;
     isPolling := isPolling w;
     pollInterval := pollInterval w;
     pending := pending w;
     toasts := toasts w ++ [t];
     calls := calls w;
     console := console w |}.

Definition add_call (c : ApiCall) (w : World) : World :=
  {| view := view w;
     listWrites := listWrites w;
     processingListIds := processingListIds w;
     isPolling := isPolling w;
     pollInterval := pollInterval w;
     pending := pending w;
     toasts := toasts w;
     calls := calls w ++ [c];
     console := console w |}.

Definition add_console (line : string) (w : World) : World :=
  {| view := view w;
     listWrites := listWrites w;
     processingListIds := processingListIds w;
     isPolling := isPolling w;
     pollInterval := pollInterval w;
     pending := pending w;
     toasts := toasts w;
     calls := calls w;
     console := console w ++ [line] |}.

(** The page right after its first render, holding [l]. *)
Definition mounted (l : list List) : World :=
  {| view := setLists l initial_view;
     listWrites := [];
     processingListIds := [];
     isPolling := false;
     pollInterval := None;
     pending := 0;
     toasts := [];
     calls := [];
     console := [] |}.

(** *** The polling effect *)

(** The effect is dormant when nothing it could still do touches the page:
    no request is awaited, and the flag is down or no timer is registered. *)
Definition dormant (w : World) : Prop :=
  pending w = 0%nat /\ (isPolling w = false \/ pollInterval w = None).


(** What the event loop can deliver to the effect. *)
Inductive Event : Type :=
| TimerFires
| FetchSettles (result : settled (list List)) (now : Z)
| Cleanup.

Section Polling.
Variable parseDate : string -> option Z.

(** [processingListIds.includes(x)] *)
Definition includes (ids : list string) (x : string) : bool :=
  existsb (String.eqb x) ids.

(** [updatedLists.some(list => processingListIds.includes(list.id) &&
    isListProcessing(list))] *)
Definition stillProcessing (ids : list string) (now : Z)
  (updatedLists : list List) : bool :=
  existsb (fun list => includes ids (id list) && isListProcessing parseDate now list)
    updatedLists.

(** The body of the effect, run after a render at time [now]: with no
    processing list it returns at once, otherwise it arms the flag and
    registers the interval timer. *)
Definition pollingEffect (now : Z) (w : World) : World :=
  let ids :=
    map id (List.filter (fun list => isListProcessing parseDate now list)
              (lists (view w))) in
  if (length ids =? 0)%nat then w
  else with_poll ids true (Some 5000) w.

(** The timer callback up to its [await]: it returns when the flag is
    down, and otherwise issues [api.getLists()] and suspends. Without a
    registered timer nothing fires. *)
Definition callback_start (w : World) : World :=
  match pollInterval w with
  | None => w
  | Some _ =>
      if negb (isPolling w) then w
      else with_pending (S (pending w)) (add_call getLists w)
  end.

(** The timer callback from its [await] on, once the request has settled
    at time [now]. The flag is not read again here. *)
Definition callback_resume (result : settled (list List)) (now : Z)
  (w : World) : World :=
  match pending w with
  | O => w
  | S n =>
      let w := with_pending n w in
      match result with
      | Resolved updatedLists =>
          if negb (stillProcessing (processingListIds w) now updatedLists)
          then
            let w := add_console "[FRONTEND] List processing completed, refreshing lists" w in
            let w := write_lists updatedLists w in
            with_poll (processingListIds w) false (pollInterval w) w
          else w
      | Rejected _ => add_console "Error polling lists:" w
      end
  end.

(** The function the effect returns. *)
Definition cleanup (w : World) : World :=
  with_poll (processingListIds w) false None w.

Definition step (e : Event) (w : World) : World :=
  match e with
  | TimerFires => callback_start w
  | FetchSettles result now => callback_resume result now w
  | Cleanup => cleanup w
  end.

(** The events of a trace, delivered in order. *)
Definition run (trace : list Event) (w : World) : World :=
  fold_left (fun w e => step e w) trace w.

(** One tick whose request settles, with [result] at time [now], before
    the timer fires again; and a succession of such ticks. *)
Definition tick (result : settled (list List)) (now : Z) : list Event :=
  [TimerFires; FetchSettles result now].

Definition ticks (results : list (settled (list List) * Z)) : list Event :=
  flat_map (fun item => tick item.1 item.2) results.

(** Whether a tick finds the job finished: its request resolves and none
    of the lists in [ids] is processing any more. *)
Definition settles (ids : list string) (result : settled (list List))
  (now : Z) : bool :=
  match result with
  | Resolved updatedLists => negb (stillProcessing ids now updatedLists)
  | Rejected _ => false
  end.

(** Whether an event is a step of a loop that has not found the job
    finished: a firing of the timer, or a request that settles without
    settling the loop. *)
Definition unsettled (ids : list string) (e : Event) : bool :=
  match e with
  | TimerFires => true
  | FetchSettles result now => negb (settles ids result now)
  | Cleanup => false
  end.

End Polling.

(** *** The mutation handlers *)

(** How the backend answers: the settlement of the [n]-th call the page
    issues, for a fetch of the lists and for any other member of [api]
    (whose payload the page never reads). *)
Record Backend : Type := {
  reply_lists : nat -> settled (list List);
  reply : nat -> ApiCall -> settled unit;
}.

(** A handler threads the world through its statements. *)
Definition M (A : Type) : Type := World -> A * World.

#[global] Instance M_ret : MRet M := fun A a w => (a, w).
#[global] Instance M_bind : MBind M :=
  fun A B f m w => let (a, w') := m w in f a w'.

Definition modify (f : World -> World) : M unit := fun w => (tt, f w).
Definition update (f : View -> View) : M unit := modify (with_view f).
Definition toast (t : Toast) : M unit := modify (add_toast t).
Definition render : M View := fun w => (view w, w).

(** Running a handler to completion. *)
Definition exec (m : M unit) (w : World) : World := (m w).2.

(** [error instanceof Error ? error.message : fallback] *)
Definition message_or (e : thrown) (fallback : string) : string :=
  match e with
  | ErrorObj message => message
  | NonError => fallback
  end.

Definition error_toast (e : thrown) (fallback : string) : Toast :=
  {| title := "Error";
     description := message_or e fallback;
     variant := Some "destructive" |}.

(** The payload that [handleGenerateList] builds from the form. *)
Definition requestData (v : View) : PopulateListRequest.t :=
  {| PopulateListRequest.search_url := searchUrl v;
     PopulateListRequest.profile_limit := Some (profileLimit v);
     PopulateListRequest.collect_only := Some (collectOnly v);
     PopulateListRequest.send_note := Some (sendNote v);
     PopulateListRequest.note_text := Some (noteText v) |}.

Section Handlers.
Variable backend : Backend.

(** [await api.getLists()] *)
Definition await_getLists : M (settled (list List)) :=
  fun w => (reply_lists backend (length (calls w)), add_call getLists w).

(** [await api.<member>(...)] for the members whose result is dropped. *)
Definition await_call (c : ApiCall) : M (settled unit) :=
  fun w => (reply backend (length (calls w)) c, add_call c w).

Definition fetchLists : M unit :=
  update (setIsLoadingLists true);;
  r ← await_getLists;
  match r with
  | Resolved listsData => modify (write_lists listsData)
  | Rejected e => toast (error_toast e "Failed to load lists")
  end;;
  update (setIsLoadingLists false).

Definition handleGenerateList : M unit :=
  v ← render;
  if String.eqb (trim (searchUrl v)) ""
  then
    toast {| title := "Error";
             description := "Please enter a LinkedIn search URL";
             variant := Some "destructive" |}
  else
    update (setIsLoading true);;
    r ← await_call (populateList (requestData v));
    match r with
    | Resolved _ =>
        toast {| title := "Success";
                 description := "List generation started successfully";
                 variant := None |};;
        update (setIsModalOpen false);;
        update (setSearchUrl "");;
        update (setProfileLimit 20);;
        update (setCollectOnly false);;
        update (setSendNote false);;
        update (setNoteText "");;
        fetchLists
    | Rejected e => toast (error_toast e "Failed to generate list")
    end;;
    update (setIsLoading false).

Definition handleRename : M unit :=
  v ← render;
  match listToRename v with
  | Some target =>
      if String.eqb (trim (newListName v)) ""
      then
        toast {| title := "Error";
                 description := "Please enter a list name";
                 variant := Some "destructive" |}
      else
        update (setIsRenaming true);;
        r ← await_call (updateList (id target) (trim (newListName v)));
        match r with
        | Resolved _ =>
            toast {| title := "Success";
                     description := "List renamed successfully";
                     variant := None |};;
            update (setRenameDialogOpen false);;
            update (setListToRename None);;
            update (setNewListName "");;
            fetchLists
        | Rejected e => toast (error_toast e "Failed to rename list")
        end;;
        update (setIsRenaming false)
  | None =>
      toast {| title := "Error";
               description := "Please enter a list name";
               variant := Some "destructive" |}
  end.

Definition handleDelete : M unit :=
  v ← render;
  match listToDelete v with
  | Some target =>
      update (setIsDeleting true);;
      r ← await_call (deleteList (id target));
      match r with
      | Resolved _ =>
          toast {| title := "Success";
                   description := "List deleted successfully";
                   variant := None |};;
          update (setDeleteDialogOpen false);;
          update (setListToDelete None);;
          fetchLists
      | Rejected e => toast (error_toast e "Failed to delete list")
      end;;
      update (setIsDeleting false)
  | None => mret tt
  end.

End Handlers.

End ListsPage.

(** ** Sample data *)

Module Samples.
Import Js Api ListsPage.

(** The wording of V8. *)
Definition v8 : Engine :=
  {| null_read_message :=
       fun p => "Cannot read properties of null (reading '" +:+ p +:+ "')";
     json_syntax_message := "Unexpected end of JSON input" |}.

Definition with_key : Env :=
  {| NEXT_PUBLIC_API_URL := Some "http://localhost:8000";
     NEXT_PUBLIC_API_KEY := Some "s3cret" |}.

Definition without_key : Env :=
  {| NEXT_PUBLIC_API_URL := Some "http://localhost:8000";
     NEXT_PUBLIC_API_KEY := None |}.

Definition rate_limited : Response :=
  {| ok := false;
     status := 429;
     statusText := "Too Many Requests";
     json_body := Some (JObj {[ "detail" := JStr "rate limited" ]}) |}.

Definition bad_gateway : Response :=
  {| ok := false;
     status := 502;
     statusText := "Bad Gateway";
     json_body := None |}.

(** Over HTTP/2 a response has no reason phrase: [statusText] is empty. *)
Definition h2_bad_gateway : Response :=
  {| ok := false; status := 502; statusText := ""; json_body := None |}.

Definition not_found : Response :=
  {| ok := false;
     status := 404;
     statusText := "Not Found";
     json_body := Some (JObj ∅) |}.

Definition h2_not_found : Response :=
  {| ok := false; status := 404; statusText := ""; json_body := Some (JObj ∅) |}.

Definition h2_server_error : Response :=
  {| ok := false; status := 500; statusText := ""; json_body := Some (JObj ∅) |}.

(** [Date.parse] on the one timestamp the samples use,
    2024-01-01T00:00:00.000Z. *)
Definition clock (s : string) : option Z :=
  if String.eqb s "2024-01-01T00:00:00.000Z" then Some 1704067200000 else None.

Definition midnight : Z := 1704067200000.

Definition sample_list (key : string) (profiles others : option Z) : List :=
  {| id := key;
     name := "Engineers";
     search_url := Some "https://x/search?kw=eng";
     profile_count := profiles;
     count := others;
     created_at := Some "2024-01-01T00:00:00.000Z" |}.

(** A list whose job just started, the same list once five profiles are
    in, and a list that reports its size in [count] only. *)
Definition fresh : List := sample_list "a" (Some 0) None.
Definition populated : List := sample_list "a" (Some 5) None.
Definition count_only : List := sample_list "b" None (Some 0).

(** The page holding [fresh], after its polling effect has run. *)
Definition polling : World := pollingEffect clock midnight (mounted [fresh]).

(** Two ticks that do not settle: a network failure after five seconds, and
    after ten seconds a fetch that still finds the list empty. *)
Definition unsettled_ticks : list (settled (list List) * Z) :=
  [(Rejected (ErrorObj "Failed to fetch"), midnight + 5000);
   (Resolved [fresh], midnight + 10000)].

(** The page with the form filled in as in the submission scenario, and
    with [fresh] picked for renaming and for deletion. *)
Definition filled_in : World :=
  with_view (fun v =>
    setListToDelete (Some fresh)
      (setNewListName "Engineers EU"
        (setListToRename (Some fresh)
          (setCollectOnly true
            (setProfileLimit 50
              (setSearchUrl "https://x/search?kw=eng" v))))))
    (mounted [fresh]).

(** A backend that answers every mutation with a 429. *)
Definition refusing : Backend :=
  {| reply_lists := fun _ => Resolved [fresh];
     reply := fun _ _ => Rejected (error_of v8 rate_limited) |}.

End Samples.

(** ** The rest of [frontend/lib/api.ts] *)

(** The [Sender] interface. *)
Module Sender.
Record t : Type := {
  id : string;
  name : option string;
  enabled : bool;
  updated_at : option string;
  storage_state : option string;
}.
End Sender.

(** The [Prospect] interface. *)
Module Prospect.
Record t : Type := {
  id : option string;
  profile_url : string;
  first_name : option string;
  status : option string;
  list_id : option string;
}.
End Prospect.

(** ** Promises *)

Module Promise.
Import Js.

(** [Promise.all([a, b])]: the pair of the results when both resolve, and
    otherwise the reason of the one that rejects first, [a_first] telling
    which of the two settles first. *)
Definition all {A B : Type} (a : settled A) (b : settled B) (a_first : bool)
  : settled (A * B) :=
  match a, b with
  | Resolved x, Resolved y => Resolved (x, y)
  | Rejected e, Resolved _ => Rejected e
  | Resolved _, Rejected e => Rejected e
  | Rejected ea, Rejected eb => Rejected (if a_first then ea else eb)
  end.

End Promise.

(** ** What a trace of the polling effect contains *)

Module Trace.
Import Js Api ListsPage.

Definition is_fire (e : Event) : bool :=
  match e with
  | TimerFires => true
  | _ => false
  end.

Definition is_cleanup (e : Event) : bool :=
  match e with
  | Cleanup => true
  | _ => false
  end.

(** How often the timer fires in a trace. *)
Definition fires (trace : list Event) : nat :=
  length (List.filter is_fire trace).

(** The collections that the requests of a trace resolve with, in order. *)
Definition payloads (trace : list Event) : list (list List) :=
  flat_map (fun e =>
    match e with
    | FetchSettles (Resolved updatedLists) _ => [updatedLists]
    | _ => []
    end) trace.

End Trace.

(** ** The rest of [ListsPage] *)

Module ListsPageRest.
Import Js Api ListsPage.

(** [fetchSenders], given how [api.getSenders()] settles. *)
Definition fetchSenders (reply : settled (list Sender.t)) : M unit :=
  modify (add_call getSenders);;
  match reply with
  | Resolved sendersData =>
      let enabledCount := length (List.filter Sender.enabled sendersData) in
      update (setEnabledSendersCount (Z.of_nat enabledCount))
  | Rejected _ =>
      modify (add_console "Error fetching senders:");;
      update (setEnabledSendersCount 0)
  end.

(** [disabled={enabledSendersCount === 0}] on the button that opens the
    generation dialog. *)
Definition generate_disabled (v : View) : bool :=
  (enabledSendersCount v =? 0)%Z.

(** [handleRenameClick]; the name of a [List] is a string, on which
    [list.name || ""] is the identity. *)
Definition handleRenameClick (l : List) : M unit :=
  update (setListToRename (Some l));;
  update (setNewListName (name l));;
  update (setRenameDialogOpen true).

Definition handleDeleteClick (l : List) : M unit :=
  update (setListToDelete (Some l));;
  update (setDeleteDialogOpen true).

(** The toasts of the handlers. *)
Definition blank_url_toast : Toast :=
  {| title := "Error";
     description := "Please enter a LinkedIn search URL";
     variant := Some "destructive" |}.

Definition blank_name_toast : Toast :=
  {| title := "Error";
     description := "Please enter a list name";
     variant := Some "destructive" |}.

Definition success_toast (text : string) : Toast :=
  {| title := "Success"; description := text; variant := None |}.

(** What a handler does from the world [w], against [backend], at most:
    it calls the backend twice, and calls [setLists] once, with lists that
    the backend returned; and if it called the backend, its [busy] flag is
    down at the end. *)
Definition bounded_effects (backend : Backend) (busy : View -> bool)
  (w w' : World) : Prop :=
  exists (extra : list ApiCall) (written : list (list List)),
    calls w' = calls w ++ extra /\
    (length extra <= 2)%nat /\
    listWrites w' = listWrites w ++ written /\
    (length written <= 1)%nat /\
    (forall l, In l written -> exists n, reply_lists backend n = Resolved l) /\
    (extra <> [] -> busy (view w') = false).

End ListsPageRest.

(** ** State threading for the other components *)

Module State.

(** A statement sequence over a state [S]. *)
Definition St (S A : Type) : Type := S -> A * S.

#[global] Instance St_ret {S : Type} : MRet (St S) := fun A a s => (a, s).
#[global] Instance St_bind {S : Type} : MBind (St S) :=
  fun A B f m s => let (a, s') := m s in f a s'.

Definition change {S : Type} (f : S -> S) : St S unit := fun s => (tt, f s).
Definition current {S : Type} : St S S := fun s => (s, s).
Definition finish {S : Type} (m : St S unit) (s : S) : S := (m s).2.

End State.

(** ** [ListDetailPage], the page of one list *)

Module ListDetailPage.
Import Js Api State.

(** The [useState] cells; [listCell] is the cell named [list]. *)
Record Cells : Type := {
  listCell : option List;
  profiles : list Prospect.t;
  isLoading : bool;
  isLoadingProfiles : bool;
}.

Definition setListCell (x : option List) (v : Cells) : Cells :=
  {| listCell := x; profiles := profiles v; isLoading := isLoading v;
     isLoadingProfiles := isLoadingProfiles v |}.

Definition setProfiles (x : list Prospect.t) (v : Cells) : Cells :=
  {| listCell := listCell v; profiles := x; isLoading := isLoading v;
     isLoadingProfiles := isLoadingProfiles v |}.

Definition setIsLoading (x : bool) (v : Cells) : Cells :=
  {| listCell := listCell v; profiles := profiles v; isLoading := x;
     isLoadingProfiles := isLoadingProfiles v |}.

Definition setIsLoadingProfiles (x : bool) (v : Cells) : Cells :=
  {| listCell := listCell v; profiles := profiles v;
     isLoading := isLoading v; isLoadingProfiles := x |}.

(** The cells at the first render. *)
Definition initial : Cells :=
  {| listCell := None; profiles := []; isLoading := true;
     isLoadingProfiles := true |}.

Record World : Type := {
  cells : Cells;
  toasts : list ListsPage.Toast;
  calls : list ApiCall;
}.

Definition set (f : Cells -> Cells) : St World unit :=
  change (fun w => {| cells := f (cells w); toasts := toasts w; calls := calls w |}).

Definition toast (t : ListsPage.Toast) : St World unit :=
  change (fun w => {| cells := cells w; toasts := toasts w ++ [t]; calls := calls w |}).

Definition call (c : ApiCall) : St World unit :=
  change (fun w => {| cells := cells w; toasts := toasts w; calls := calls w ++ [c] |}).

(** How the two requests of the page settle, and which settles first. *)
Record Replies : Type := {
  list_reply : settled List;
  prospects_reply : settled (list Prospect.t);
  list_first : bool;
}.

(** [fetchListData], for the identifier [id] of the page. *)
Definition fetchListData (replies : Replies) (id : string) : St World unit :=
  set (setIsLoading true);;
  set (setIsLoadingProfiles true);;
  call (getList id);;
  call (getListProspects id);;
  match Promise.all (list_reply replies) (prospects_reply replies)
          (list_first replies) with
  | Resolved (listData, prospectsData) =>
      set (setListCell (Some listData));;
      set (setProfiles prospectsData)
  | Rejected e => toast (ListsPage.error_toast e "Failed to load list data")
  end;;
  set (setIsLoading false);;
  set (setIsLoadingProfiles false).

(** The effect of the page: [if (id) fetchListData()]. *)
Definition effect (replies : Replies) (id : string) : St World unit :=
  if String.eqb id "" then mret tt else fetchListData replies id.

(** Which of its three bodies the page renders. *)
Inductive Screen : Type :=
| LoadingSkeleton
| NotFound
| Details (l : List) (shown : nat).

Definition screen (v : Cells) : Screen :=
  if isLoading v then LoadingSkeleton
  else match listCell v with
       | None => NotFound
       | Some l => Details l (length (profiles v))
       end.

End ListDetailPage.

(** ** [CreateCampaignModal] *)

Module CreateCampaignModal.
Import Js Api State.

Record Cells : Type := {
  name : string;
  listIds : list string;
  profileId : string;
  message : string;
  lists : list List;
  senderProfiles : list Sender.t;
  isLoadingData : bool;
}.

Definition setName (x : string) (v : Cells) : Cells :=
  {| name := x; listIds := listIds v; profileId := profileId v;
     message := message v; lists := lists v;
     senderProfiles := senderProfiles v; isLoadingData := isLoadingData v |}.

Definition setListIds (x : list string) (v : Cells) : Cells :=
  {| name := name v; listIds := x; profileId := profileId v;
     message := message v; lists := lists v;
     senderProfiles := senderProfiles v; isLoadingData := isLoadingData v |}.

Definition setProfileId (x : string) (v : Cells) : Cells :=
  {| name := name v; listIds := listIds v; profileId := x;
     message := message v; lists := lists v;
     senderProfiles := senderProfiles v; isLoadingData := isLoadingData v |}.

Definition setMessage (x : string) (v : Cells) : Cells :=
  {| name := name v; listIds := listIds v; profileId := profileId v;
     message := x; lists := lists v; senderProfiles := senderProfiles v;
     isLoadingData := isLoadingData v |}.

Definition setLists (x : list List) (v : Cells) : Cells :=
  {| name := name v; listIds := listIds v; profileId := profileId v;
     message := message v; lists := x; senderProfiles := senderProfiles v;
     isLoadingData := isLoadingData v |}.

Definition setSenderProfiles (x : list Sender.t) (v : Cells) : Cells :=
  {| name := name v; listIds := listIds v; profileId := profileId v;
     message := message v; lists := lists v; senderProfiles := x;
     isLoadingData := isLoadingData v |}.

Definition setIsLoadingData (x : bool) (v : Cells) : Cells :=
  {| name := name v; listIds := listIds v; profileId := profileId v;
     message := message v; lists := lists v;
     senderProfiles := senderProfiles v; isLoadingData := x |}.

Definition initial : Cells :=
  {| name := ""; listIds := []; profileId := ""; message := ""; lists := [];
     senderProfiles := []; isLoadingData := false |}.

(** What [onSubmit] receives. *)
Record Submission : Type := {
  sub_name : string;
  sub_listIds : list string;
  sub_profileId : string;
  sub_message : string;
}.

Record World : Type := {
  cells : Cells;
  submitted : list Submission;
  calls : list ApiCall;
  console : list string;
}.

Definition set (f : Cells -> Cells) : St World unit :=
  change (fun w => {| cells := f (cells w); submitted := submitted w;
                      calls := calls w; console := console w |}).

Definition onSubmit (d : Submission) : St World unit :=
  change (fun w => {| cells := cells w; submitted := submitted w ++ [d];
                      calls := calls w; console := console w |}).

Definition call (c : ApiCall) : St World unit :=
  change (fun w => {| cells := cells w; submitted := submitted w;
                      calls := calls w ++ [c]; console := console w |}).

Definition log (line : string) : St World unit :=
  change (fun w => {| cells := cells w; submitted := submitted w;
                      calls := calls w; console := console w ++ [line] |}).

(** The updater that [handleToggleList] passes to [setListIds]. *)
Definition toggle (listId : string) (prev : list string) : list string :=
  if ListsPage.includes prev listId
  then List.filter (fun id => negb (String.eqb id listId)) prev
  else prev ++ [listId].

Definition handleToggleList (listId : string) : St World unit :=
  set (fun v => setListIds (toggle listId (listIds v)) v).

(** The four [set...] calls that empty the form. *)
Definition reset : St World unit :=
  set (setName "");;
  set (setListIds []);;
  set (setProfileId "");;
  set (setMessage "").

(** [name && listIds.length > 0 && profileId && message] *)
Definition complete (v : Cells) : bool :=
  negb (String.eqb (name v) "") && (0 <? length (listIds v))%nat
  && negb (String.eqb (profileId v) "") && negb (String.eqb (message v) "").

Definition handleSubmit : St World unit :=
  w ← current;
  let v := cells w in
  if complete v
  then
    onSubmit {| sub_name := name v; sub_listIds := listIds v;
                sub_profileId := profileId v; sub_message := message v |};;
    reset
  else mret tt.

Record Replies : Type := {
  lists_reply : settled (list List);
  senders_reply : settled (list Sender.t);
  lists_first : bool;
}.

Definition fetchData (replies : Replies) : St World unit :=
  set (setIsLoadingData true);;
  call getLists;;
  call getSenders;;
  match Promise.all (lists_reply replies) (senders_reply replies)
          (lists_first replies) with
  | Resolved (listsData, sendersData) =>
      set (setLists listsData);;
      set (setSenderProfiles (List.filter Sender.enabled sendersData))
  | Rejected _ =>
      log "Error fetching data:";;
      set (setLists []);;
      set (setSenderProfiles [])
  end;;
  set (setIsLoadingData false).

(** The effect on [open]. *)
Definition effect (replies : Replies) (open : bool) : St World unit :=
  if open then fetchData replies else reset.

End CreateCampaignModal.

(** ** [ProfilesPage] *)

Module ProfilesPage.
Import Js Api State.

Record Cells : Type := {
  profiles : list Sender.t;
  isModalOpen : bool;
  isLoading : bool;
  renameDialogOpen : bool;
  senderToRename : option Sender.t;
  newSenderName : string;
  isRenaming : bool;
  updateDialogOpen : bool;
  senderToUpdate : option Sender.t;
  updateName : string;
  updateStorageState : string;
  isUpdating : bool;
}.

Definition setProfiles (x : list Sender.t) (v : Cells) : Cells :=
  {| profiles := x; isModalOpen := isModalOpen v; isLoading := isLoading v;
     renameDialogOpen := renameDialogOpen v;
     senderToRename := senderToRename v; newSenderName := newSenderName v;
     isRenaming := isRenaming v; updateDialogOpen := updateDialogOpen v;
     senderToUpdate := senderToUpdate v; updateName := updateName v;
     updateStorageState := updateStorageState v;
     isUpdating := isUpdating v |}.

Definition setIsModalOpen (x : bool) (v : Cells) : Cells :=
  {| profiles := profiles v; isModalOpen := x; isLoading := isLoading v;
     renameDialogOpen := renameDialogOpen v;
     senderToRename := senderToRename v; newSenderName := newSenderName v;
     isRenaming := isRenaming v; updateDialogOpen := updateDialogOpen v;
     senderToUpdate := senderToUpdate v; updateName := updateName v;
     updateStorageState := updateStorageState v;
     isUpdating := isUpdating v |}.

Definition setIsLoading (x : bool) (v : Cells) : Cells :=
  {| profiles := profiles v; isModalOpen := isModalOpen v; isLoading := x;
     renameDialogOpen := renameDialogOpen v;
     senderToRename := senderToRename v; newSenderName := newSenderName v;
     isRenaming := isRenaming v; updateDialogOpen := updateDialogOpen v;
     senderToUpdate := senderToUpdate v; updateName := updateName v;
     updateStorageState := updateStorageState v;
     isUpdating := isUpdating v |}.

Definition setRenameDialogOpen (x : bool) (v : Cells) : Cells :=
  {| profiles := profiles v; isModalOpen := isModalOpen v;
     isLoading := isLoading v; renameDialogOpen := x;
     senderToRename := senderToRename v; newSenderName := newSenderName v;
     isRenaming := isRenaming v; updateDialogOpen := updateDialogOpen v;
     senderToUpdate := senderToUpdate v; updateName := updateName v;
     updateStorageState := updateStorageState v;
     isUpdating := isUpdating v |}.

Definition setSenderToRename (x : option Sender.t) (v : Cells) : Cells :=
  {| profiles := profiles v; isModalOpen := isModalOpen v;
     isLoading := isLoading v; renameDialogOpen := renameDialogOpen v;
     senderToRename := x; newSenderName := newSenderName v;
     isRenaming := isRenaming v; updateDialogOpen := updateDialogOpen v;
     senderToUpdate := senderToUpdate v; updateName := updateName v;
     updateStorageState := updateStorageState v;
     isUpdating := isUpdating v |}.

Definition setNewSenderName (x : string) (v : Cells) : Cells :=
  {| profiles := profiles v; isModalOpen := isModalOpen v;
     isLoading := isLoading v; renameDialogOpen := renameDialogOpen v;
     senderToRename := senderToRename v; newSenderName := x;
     isRenaming := isRenaming v; updateDialogOpen := updateDialogOpen v;
     senderToUpdate := senderToUpdate v; updateName := updateName v;
     updateStorageState := updateStorageState v;
     isUpdating := isUpdating v |}.

Definition setIsRenaming (x : bool) (v : Cells) : Cells :=
  {| profiles := profiles v; isModalOpen := isModalOpen v;
     isLoading := isLoading v; renameDialogOpen := renameDialogOpen v;
     senderToRename := senderToRename v; newSenderName := newSenderName v;
     isRenaming := x; updateDialogOpen := updateDialogOpen v;
     senderToUpdate := senderToUpdate v; updateName := updateName v;
     updateStorageState := updateStorageState v;
     isUpdating := isUpdating v |}.

Definition setUpdateDialogOpen (x : bool) (v : Cells) : Cells :=
  {| profiles := profiles v; isModalOpen := isModalOpen v;
     isLoading := isLoading v; renameDialogOpen := renameDialogOpen v;
     senderToRename := senderToRename v; newSenderName := newSenderName v;
     isRenaming := isRenaming v; updateDialogOpen := x;
     senderToUpdate := senderToUpdate v; updateName := updateName v;
     updateStorageState := updateStorageState v;
     isUpdating := isUpdating v |}.

Definition setSenderToUpdate (x : option Sender.t) (v : Cells) : Cells :=
  {| profiles := profiles v; isModalOpen := isModalOpen v;
     isLoading := isLoading v; renameDialogOpen := renameDialogOpen v;
     senderToRename := senderToRename v; newSenderName := newSenderName v;
     isRenaming := isRenaming v; updateDialogOpen := updateDialogOpen v;
     senderToUpdate := x; updateName := updateName v;
     updateStorageState := updateStorageState v;
     isUpdating := isUpdating v |}.

Definition setUpdateName (x : string) (v : Cells) : Cells :=
  {| profiles := profiles v; isModalOpen := isModalOpen v;
     isLoading := isLoading v; renameDialogOpen := renameDialogOpen v;
     senderToRename := senderToRename v; newSenderName := newSenderName v;
     isRenaming := isRenaming v; updateDialogOpen := updateDialogOpen v;
     senderToUpdate := senderToUpdate v; updateName := x;
     updateStorageState := updateStorageState v;
     isUpdating := isUpdating v |}.

Definition setUpdateStorageState (x : string) (v : Cells) : Cells :=
  {| profiles := profiles v; isModalOpen := isModalOpen v;
     isLoading := isLoading v; renameDialogOpen := renameDialogOpen v;
     senderToRename := senderToRename v; newSenderName := newSenderName v;
     isRenaming := isRenaming v; updateDialogOpen := updateDialogOpen v;
     senderToUpdate := senderToUpdate v; updateName := updateName v;
     updateStorageState := x; isUpdating := isUpdating v |}.

Definition setIsUpdating (x : bool) (v : Cells) : Cells :=
  {| profiles := profiles v; isModalOpen := isModalOpen v;
     isLoading := isLoading v; renameDialogOpen := renameDialogOpen v;
     senderToRename := senderToRename v; newSenderName := newSenderName v;
     isRenaming := isRenaming v; updateDialogOpen := updateDialogOpen v;
     senderToUpdate := senderToUpdate v; updateName := updateName v;
     updateStorageState := updateStorageState v; isUpdating := x |}.

Definition initial : Cells :=
  {| profiles := []; isModalOpen := false; isLoading := true;
     renameDialogOpen := false; senderToRename := None; newSenderName := "";
     isRenaming := false; updateDialogOpen := false; senderToUpdate := None;
     updateName := ""; updateStorageState := ""; isUpdating := false |}.

Record World : Type := {
  cells : Cells;
  toasts : list ListsPage.Toast;
  calls : list ApiCall;
}.

Definition set (f : Cells -> Cells) : St World unit :=
  change (fun w => {| cells := f (cells w); toasts := toasts w; calls := calls w |}).

Definition toast (t : ListsPage.Toast) : St World unit :=
  change (fun w => {| cells := cells w; toasts := toasts w ++ [t]; calls := calls w |}).

Definition success (text : string) : ListsPage.Toast :=
  {| ListsPage.title := "Success"; ListsPage.description := text;
     ListsPage.variant := None |}.

Definition failure (text : string) : ListsPage.Toast :=
  {| ListsPage.title := "Error"; ListsPage.description := text;
     ListsPage.variant := Some "destructive" |}.

(** How the backend settles the [n]-th call of the page: a fetch of the
    senders, a toggle (whose answer carries the new [enabled]), or any other
    member, whose payload the page drops. *)
Record Backend : Type := {
  senders_reply : nat -> settled (list Sender.t);
  toggle_reply : nat -> string -> settled bool;
  reply : nat -> ApiCall -> settled unit;
}.

Section Handlers.
Variable backend : Backend.

Definition await_getSenders : St World (settled (list Sender.t)) :=
  fun w => (senders_reply backend (length (calls w)),
            {| cells := cells w; toasts := toasts w;
               calls := calls w ++ [getSenders] |}).

Definition await_toggle (senderId : string) : St World (settled bool) :=
  fun w => (toggle_reply backend (length (calls w)) senderId,
            {| cells := cells w; toasts := toasts w;
               calls := calls w ++ [toggleSender senderId] |}).

Definition await_call (c : ApiCall) : St World (settled unit) :=
  fun w => (reply backend (length (calls w)) c,
            {| cells := cells w; toasts := toasts w; calls := calls w ++ [c] |}).

Definition fetchSenders : St World unit :=
  set (setIsLoading true);;
  r ← await_getSenders;
  match r with
  | Resolved sendersData => set (setProfiles sendersData)
  | Rejected e => toast (ListsPage.error_toast e "Failed to load sender profiles")
  end;;
  set (setIsLoading false).

Definition handleAddProfile (name : string) (storage_state : option string)
  : St World unit :=
  r ← await_call (createSender name storage_state);
  match r with
  | Resolved _ =>
      toast (success "Sender profile added successfully");;
      set (setIsModalOpen false);;
      fetchSenders
  | Rejected e => toast (ListsPage.error_toast e "Failed to add sender profile")
  end.

(** The [updateData] that [handleUpdate] builds: the trimmed name, and the
    trimmed storage state only when that is not empty. *)
Definition updateData (v : Cells) : string * option string :=
  (trim (updateName v),
   if String.eqb (trim (updateStorageState v)) "" then None
   else Some (trim (updateStorageState v))).

Definition handleUpdate : St World unit :=
  w ← current;
  let v := cells w in
  match senderToUpdate v with
  | Some target =>
      if String.eqb (trim (updateName v)) ""
      then toast (failure "Please enter a sender name")
      else
        set (setIsUpdating true);;
        r ← await_call (updateSender (Sender.id target) (updateData v).1
                          (updateData v).2);
        match r with
        | Resolved _ =>
            toast (success "Sender profile updated successfully");;
            set (setUpdateDialogOpen false);;
            set (setSenderToUpdate None);;
            set (setUpdateName "");;
            set (setUpdateStorageState "");;
            fetchSenders
        | Rejected e =>
            toast (ListsPage.error_toast e "Failed to update sender profile")
        end;;
        set (setIsUpdating false)
  | None => toast (failure "Please enter a sender name")
  end.

(** [currentEnabled] is received and not used. *)
Definition handleToggleSender (senderId : string) (currentEnabled : bool)
  : St World unit :=
  r ← await_toggle senderId;
  match r with
  | Resolved enabled =>
      fetchSenders;;
      toast (success ("Sender " +:+ (if (enabled : bool) then "enabled" else "disabled")
                      +:+ " successfully"))
  | Rejected e => toast (ListsPage.error_toast e "Failed to toggle sender status")
  end.

Definition handleRenameClick (profile : Sender.t) : St World unit :=
  set (setSenderToRename (Some profile));;
  set (setNewSenderName (default "" (Sender.name profile)));;
  set (setRenameDialogOpen true).

Definition handleRename : St World unit :=
  w ← current;
  let v := cells w in
  match senderToRename v with
  | Some target =>
      if String.eqb (trim (newSenderName v)) ""
      then toast (failure "Please enter a sender name")
      else
        set (setIsRenaming true);;
        r ← await_call (updateSender (Sender.id target) (trim (newSenderName v)) None);
        match r with
        | Resolved _ =>
            toast (success "Sender renamed successfully");;
            set (setRenameDialogOpen false);;
            set (setSenderToRename None);;
            set (setNewSenderName "");;
            fetchSenders
        | Rejected e => toast (ListsPage.error_toast e "Failed to rename sender")
        end;;
        set (setIsRenaming false)
  | None => toast (failure "Please enter a sender name")
  end.

End Handlers.

End ProfilesPage.

(** ** More sample data *)

Module MoreSamples.
Import Js Api.

Definition ok_lists : Response :=
  {| ok := true; status := 200; statusText := "OK";
     json_body := Some (JArr []) |}.

(** A caller that sets its own content type and a tracing header. *)
Definition with_caller_headers : RequestInit :=
  {| method := Some "POST";
     headers := Some {[ "Content-Type" := "text/plain"; "X-Trace" := "1" ]};
     body := None |}.

Definition alice : Sender.t :=
  {| Sender.id := "s1"; Sender.name := Some "Alice"; Sender.enabled := true;
     Sender.updated_at := None; Sender.storage_state := None |}.

Definition bob : Sender.t :=
  {| Sender.id := "s2"; Sender.name := Some "Bob"; Sender.enabled := false;
     Sender.updated_at := None; Sender.storage_state := None |}.

Definition prospect : Prospect.t :=
  {| Prospect.id := Some "p1";
     Prospect.profile_url := "https://www.linkedin.com/in/jane/";
     Prospect.first_name := Some "Jane"; Prospect.status := Some "new";
     Prospect.list_id := Some "a" |}.

(** A no-break space, a space, a byte order mark, a tab and a line
    separator, in UTF-8. *)
Definition white_space : string :=
  string_of_list_ascii
    (map ascii_of_nat
       [194; 160; 32; 239; 187; 191; 9; 226; 128; 168]%nat).

(** The lists page with a search URL of white space only. *)
Definition blank_form : ListsPage.World :=
  ListsPage.with_view (ListsPage.setSearchUrl white_space) (ListsPage.mounted []).

(** The sample list with seven profiles. *)
Definition grown : List := Samples.sample_list "a" (Some 7) None.

(** A backend that accepts every mutation and then returns the populated
    list, and one that accepts the mutation and fails the fetch. *)
Definition accepting : ListsPage.Backend :=
  {| ListsPage.reply_lists := fun _ => Resolved [Samples.populated];
     ListsPage.reply := fun _ _ => Resolved tt |}.

Definition accepting_then_down : ListsPage.Backend :=
  {| ListsPage.reply_lists := fun _ => Rejected (ErrorObj "Failed to fetch");
     ListsPage.reply := fun _ _ => Resolved tt |}.

(** The page of list "a": both requests resolve, or the profiles fail. *)
Definition both_resolve : ListDetailPage.Replies :=
  {| ListDetailPage.list_reply := Resolved Samples.populated;
     ListDetailPage.prospects_reply := Resolved [prospect];
     ListDetailPage.list_first := true |}.

Definition prospects_fail : ListDetailPage.Replies :=
  {| ListDetailPage.list_reply := Resolved Samples.populated;
     ListDetailPage.prospects_reply := Rejected (ErrorObj "HTTP error! status: 500");
     ListDetailPage.list_first := true |}.

(** The campaign dialog, filled in. *)
Definition campaign_form : CreateCampaignModal.World :=
  {| CreateCampaignModal.cells :=
       {| CreateCampaignModal.name := "Q1 Outreach";
          CreateCampaignModal.listIds := ["a"];
          CreateCampaignModal.profileId := "s1";
          CreateCampaignModal.message := "Hi {{first_name}}";
          CreateCampaignModal.lists := [Samples.populated];
          CreateCampaignModal.senderProfiles := [alice];
          CreateCampaignModal.isLoadingData := false |};
     CreateCampaignModal.submitted := [];
     CreateCampaignModal.calls := [];
     CreateCampaignModal.console := [] |}.

(** The profiles page with the update dialog open on Alice, a new name and
    a storage box that holds white space only; and with the rename dialog
    open on Bob. *)
Definition updating : ProfilesPage.World :=
  {| ProfilesPage.cells :=
       ProfilesPage.setNewSenderName " Robert "
         (ProfilesPage.setSenderToRename (Some bob)
           (ProfilesPage.setUpdateStorageState white_space
             (ProfilesPage.setUpdateName " Alice B "
               (ProfilesPage.setSenderToUpdate (Some alice)
                 (ProfilesPage.setProfiles [alice; bob] ProfilesPage.initial)))));
     ProfilesPage.toasts := [];
     ProfilesPage.calls := [] |}.

Definition profiles_backend : ProfilesPage.Backend :=
  {| ProfilesPage.senders_reply := fun _ => Resolved [alice; bob];
     ProfilesPage.toggle_reply := fun _ _ => Resolved true;
     ProfilesPage.reply := fun _ _ => Resolved tt |}.

End MoreSamples.

(** * Properties *)

Import Js Api ListsPage.

(** ** The API client *)

Section ApiFacts.
Variable env : Env.
Variable engine : Engine.

Lemma api_sets_no_headers (c : ApiCall) : headers (api c).2 = None.
Proof. destruct c; reflexivity. Qed.

(** The two headers of a request whose caller passes none by these names. *)
Lemma apiRequest_request_headers (endpoint : string) (options : RequestInit) :
  default ∅ (headers options) !! "Content-Type" = None ->
  default ∅ (headers options) !! "X-API-KEY" = None ->
  let h := req_headers (apiRequest_request env endpoint options) in
  h !! "Content-Type" = Some "application/json" /\
  h !! "X-API-KEY" = (if String.eqb (API_KEY env) "" then None else Some (API_KEY env)).
Proof.
  intros Hct Hkey. unfold apiRequest_request. cbn [req_headers].
  destruct (String.eqb (API_KEY env) ""); cbn [negb].
  - split.
    + apply lookup_union_Some_raw. right. split; [exact Hct|].
      apply lookup_singleton_eq.
    + apply lookup_union_None. split; [exact Hkey|].
      apply lookup_singleton_ne. discriminate.
  - split.
    + rewrite lookup_insert_ne by discriminate.
      apply lookup_union_Some_raw. right. split; [exact Hct|].
      apply lookup_singleton_eq.
    + apply lookup_insert_eq.
Qed.

(** C9. Every request that a member of [api] issues carries
    [Content-Type: application/json]; it carries [X-API-KEY] exactly when
    the configured key is not empty, and then with the key as its value;
    with no key configured the header is absent. *)
Theorem request_of_headers (c : ApiCall) :
  let h := req_headers (request_of env c) in
  h !! "Content-Type" = Some "application/json" /\
  (is_Some (h !! "X-API-KEY") <-> API_KEY env <> "") /\
  (API_KEY env <> "" -> h !! "X-API-KEY" = Some (API_KEY env)) /\
  (NEXT_PUBLIC_API_KEY env = None -> h !! "X-API-KEY" = None).
Proof.
  intros h.
  destruct (apiRequest_request_headers (api c).1 (api c).2) as [Hct Hkey].
  { rewrite api_sets_no_headers. apply lookup_empty. }
  { rewrite api_sets_no_headers. apply lookup_empty. }
  fold (request_of env c) in Hct, Hkey. fold h in Hct, Hkey.
  split; [exact Hct|]. rewrite Hkey.
  destruct (String.eqb_spec (API_KEY env) "") as [E|E].
  - repeat split.
    + intros [x Hx]. discriminate.
    + intros H. contradiction.
    + intros H. contradiction.
  - repeat split.
    + intros _. exact E.
    + intros _. eexists. reflexivity.
    + intros Hnone. exfalso. apply E. unfold API_KEY. rewrite Hnone. reflexivity.
Qed.

(** What [apiRequest] throws on a response that is not ok, case by case. *)
Lemma error_of_unparseable (r : Response) :
  json_body r = None ->
  error_of engine r =
  ErrorObj (if String.eqb (statusText r) ""
            then "HTTP error! status: " +:+ pretty (status r)
            else statusText r).
Proof.
  intros Hbody. unfold error_of, error_document. rewrite Hbody.
  cbn [get]. rewrite lookup_singleton_eq. cbn [truthy value_to_string to_string].
  destruct (String.eqb (statusText r) ""); reflexivity.
Qed.

Lemma error_of_document (r : Response) (doc : json) :
  json_body r = Some doc ->
  doc <> JNull ->
  error_of engine r =
  ErrorObj (if truthy (get "detail" doc)
            then value_to_string (get "detail" doc)
            else "HTTP error! status: " +:+ pretty (status r)).
Proof.
  intros Hbody Hnull. unfold error_of, error_document. rewrite Hbody.
  destruct doc; try contradiction;
    destruct (truthy _); reflexivity.
Qed.

(** C5, as amended. On a response that is not ok, [apiRequest] throws one
    [Error]. Its message is the [detail] member of the JSON body when that
    member is truthy (for a non-empty string, that string itself). When the
    body is not a JSON document, the message is the status text, if that is
    not empty. Otherwise (no [detail] or a falsy one in a JSON body other
    than [null], or no JSON body and an empty status text) the message is
    "HTTP error! status: " followed by the numeric status code. *)
Theorem apiRequest_error_message
  (fetch : Request -> settled Response) (endpoint : string)
  (options : RequestInit) (r : Response) :
  fetch (apiRequest_request env endpoint options) = Resolved r ->
  ok r = false ->
  apiRequest env engine fetch endpoint options = Rejected (error_of engine r) /\
  (forall doc d,
     json_body r = Some doc -> get "detail" doc = Some d -> truthy (Some d) = true ->
     error_of engine r = ErrorObj (to_string d)) /\
  (forall doc s,
     json_body r = Some doc -> get "detail" doc = Some (JStr s) -> s <> "" ->
     error_of engine r = ErrorObj s) /\
  (json_body r = None -> statusText r <> "" ->
     error_of engine r = ErrorObj (statusText r)) /\
  (json_body r = None -> statusText r = "" ->
     error_of engine r = ErrorObj ("HTTP error! status: " +:+ pretty (status r))) /\
  (forall doc,
     json_body r = Some doc -> doc <> JNull -> truthy (get "detail" doc) = false ->
     error_of engine r = ErrorObj ("HTTP error! status: " +:+ pretty (status r))).
Proof.
  intros Hfetch Hok. split.
  { unfold apiRequest, apiRequest_settle. rewrite Hfetch, Hok. reflexivity. }
  assert (Hdetail : forall doc d, get "detail" doc = Some d -> doc <> JNull).
  { intros doc d Hget ->. discriminate. }
  repeat split.
  - intros doc d Hbody Hget Htruthy.
    rewrite (error_of_document r doc Hbody (Hdetail _ _ Hget)).
    rewrite Hget, Htruthy. reflexivity.
  - intros doc s Hbody Hget Hs.
    rewrite (error_of_document r doc Hbody (Hdetail _ _ Hget)).
    rewrite Hget. cbn [truthy value_to_string to_string].
    destruct (String.eqb_spec s ""); [contradiction | reflexivity].
  - intros Hbody Hs. rewrite (error_of_unparseable r Hbody).
    destruct (String.eqb_spec (statusText r) ""); [contradiction | reflexivity].
  - intros Hbody Hs. rewrite (error_of_unparseable r Hbody), Hs. reflexivity.
  - intros doc Hbody Hnull Hfalsy.
    rewrite (error_of_document r doc Hbody Hnull), Hfalsy. reflexivity.
Qed.

End ApiFacts.

(** C9 at [api.getLists()], with a key configured and with none. *)
Lemma request_of_headers_witness :
  req_headers (request_of Samples.with_key getLists) !! "X-API-KEY" = Some "s3cret" /\
  req_headers (request_of Samples.without_key getLists) !! "X-API-KEY" = None.
Proof.
  split.
  - refine (proj1 (proj2 (proj2 (request_of_headers Samples.with_key getLists))) _).
    discriminate.
  - exact (proj2 (proj2 (proj2 (request_of_headers Samples.without_key getLists)))
             eq_refl).
Defined.

(** C5 applied to [api.getLists()] answered with a body that has a
    [detail], with an unparseable body and with a JSON body without
    [detail]. *)
Lemma apiRequest_error_message_witness :
  let request := fun r =>
    apiRequest Samples.with_key Samples.v8 (fun _ => Resolved r) "/lists"
      (init "GET" None) in
  request Samples.rate_limited = Rejected (ErrorObj "rate limited") /\
  request Samples.bad_gateway = Rejected (ErrorObj "Bad Gateway") /\
  request Samples.not_found = Rejected (ErrorObj "HTTP error! status: 404").
Proof.
  intros request.
  pose proof (fun r => apiRequest_error_message Samples.with_key Samples.v8
                         (fun _ => Resolved r) "/lists" (init "GET" None) r eq_refl)
    as H.
  split; [|split].
  - destruct (H Samples.rate_limited eq_refl) as (Hthrown & _ & Hdetail & _).
    subst request. cbv beta.
    rewrite Hthrown, (Hdetail _ "rate limited" eq_refl eq_refl); [reflexivity|].
    discriminate.
  - destruct (H Samples.bad_gateway eq_refl) as (Hthrown & _ & _ & Htext & _).
    subst request. cbv beta.
    rewrite Hthrown, (Htext eq_refl); [reflexivity|].
    discriminate.
  - destruct (H Samples.not_found eq_refl) as (Hthrown & _ & _ & _ & _ & Hcode).
    subst request. cbv beta.
    rewrite Hthrown, (Hcode _ eq_refl); [reflexivity|discriminate|reflexivity].
Defined.

(** C5 as stated does not hold: the message for a JSON body without
    [detail] is built from the status code, whatever the status text is.
    A 404 with status text "Not Found" yields "HTTP error! status: 404", and
    two HTTP/2 responses with the same (empty) status text yield different
    messages, so no derivation from the status text gives the message. *)
Lemma apiRequest_error_message_counterexample :
  error_of Samples.v8 Samples.not_found = ErrorObj "HTTP error! status: 404" /\
  ~ (exists derive : string -> string,
       forall r : Response,
         ok r = false ->
         error_of Samples.v8 r = ErrorObj (documented_message derive r)).
Proof.
  split; [vm_compute; reflexivity|].
  intros [derive H].
  pose proof (H Samples.h2_not_found eq_refl) as H1.
  pose proof (H Samples.h2_server_error eq_refl) as H2.
  vm_compute in H1. vm_compute in H2.
  rewrite <- H2 in H1. discriminate H1.
Qed.

(** ** The processing classifier *)

Section ClassifierFacts.
Variable parseDate : string -> option Z.

(** The quotient of the difference by a minute is below ten exactly when
    the difference is below ten minutes' worth of milliseconds. *)
Lemma number_lt_diffMinutes (now t : Z) :
  number_lt (diffMinutes now (Some t)) 10 = true <-> now - t < 10 * 60 * 1000.
Proof.
  unfold number_lt, diffMinutes.
  rewrite negb_true_iff, <- not_true_iff_false, Qle_bool_iff.
  change (1000 * 60) with 60000.
  unfold Qle, Qdiv, Qmult, Qinv, inject_Z. cbn. lia.
Qed.

Lemma isListProcessing_true (now : Z) (l : List) :
  isListProcessing parseDate now l = true <->
  profile_count l = Some 0 /\
  exists s t, created_at l = Some s /\ s <> "" /\ parseDate s = Some t /\
              now - t < 10 * 60 * 1000.
Proof.
  unfold isListProcessing, profile_count_not_zero.
  destruct (profile_count l) as [n|].
  2:{ split; [discriminate | intros [? _]; discriminate]. }
  destruct (Z.eqb_spec n 0) as [->|Hn]; cbn [negb].
  2:{ split; [discriminate | intros [[=] _]; contradiction]. }
  destruct (created_at l) as [s|].
  2:{ split; [discriminate | intros [_ (s & t & [=] & _)]]. }
  destruct (String.eqb_spec s "") as [->|Hs]; cbn [negb].
  { split; [discriminate | intros [_ (s & t & [= <-] & Hs & _)]; contradiction]. }
  destruct (parseDate s) as [t|] eqn:Ht.
  - rewrite number_lt_diffMinutes. split.
    + intros Hlt. split; [reflexivity|]. exists s, t. auto.
    + intros [_ (s' & t' & [= <-] & _ & Ht' & Hlt)].
      rewrite Ht in Ht'. injection Ht' as <-. exact Hlt.
  - cbn. split; [discriminate|].
    intros [_ (s' & t' & [= <-] & _ & Ht' & _)]. congruence.
Qed.

(** C1. [isListProcessing] answers true exactly for a list whose
    [profile_count] is the number zero and whose [created_at] is a date less
    than ten minutes before the current time. So it is true for every list
    with no profiles that is less than ten minutes old, false from exactly
    ten minutes on, and false for every list with another [profile_count],
    whatever its timestamp. *)
Theorem isListProcessing_iff (now : Z) (l : List) :
  (isListProcessing parseDate now l = true <->
   profile_count l = Some 0 /\
   exists s t, created_at l = Some s /\ s <> "" /\ parseDate s = Some t /\
               now - t < 10 * 60 * 1000) /\
  (forall s t,
     profile_count l = Some 0 ->
     created_at l = Some s -> s <> "" -> parseDate s = Some t ->
     now - t < 10 * 60 * 1000 ->
     isListProcessing parseDate now l = true) /\
  (forall s t,
     created_at l = Some s -> parseDate s = Some t ->
     10 * 60 * 1000 <= now - t ->
     isListProcessing parseDate now l = false) /\
  (profile_count l <> Some 0 -> isListProcessing parseDate now l = false).
Proof.
  pose proof (isListProcessing_true now l) as Hiff.
  split; [exact Hiff|]. repeat split.
  - intros s t Hcount Hcreated Hs Ht Hlt. apply Hiff. eauto 10.
  - intros s t Hcreated Ht Hge. apply not_true_iff_false. intros Htrue.
    apply Hiff in Htrue as [_ (s' & t' & Hcreated' & _ & Ht' & Hlt)].
    rewrite Hcreated in Hcreated'. injection Hcreated' as <-.
    rewrite Ht in Ht'. injection Ht' as <-. lia.
  - intros Hcount. apply not_true_iff_false. intros Htrue.
    apply Hiff in Htrue as [Hzero _]. contradiction.
Qed.

(** C10. A list without [profile_count] (even when [count] is there and
    is zero) or without [created_at] is not processing, at any time. *)
Theorem isListProcessing_missing_field (now : Z) (l : List) :
  profile_count l = None \/ created_at l = None ->
  isListProcessing parseDate now l = false.
Proof.
  intros H. apply not_true_iff_false. intros Htrue.
  apply isListProcessing_true in Htrue as [Hzero (s & t & Hcreated & _)].
  destruct H as [H|H]; congruence.
Qed.
End ClassifierFacts.

(** ** The polling effect *)

Section PollingFacts.
Variable parseDate : string -> option Z.

Abbreviation step := (step parseDate).
Abbreviation run := (run parseDate).
Abbreviation stillProcessing := (stillProcessing parseDate).
Abbreviation pollingEffect := (pollingEffect parseDate).

Ltac project :=
  cbn [negb view listWrites processingListIds isPolling pollInterval pending
       toasts calls console].

Lemma includes_In (ids : list string) (x : string) :
  includes ids x = true <-> In x ids.
Proof.
  unfold includes. rewrite existsb_exists. split.
  - intros (y & Hy & Heq). apply String.eqb_eq in Heq. subst. exact Hy.
  - intros Hx. exists x. split; [exact Hx | apply String.eqb_refl].
Qed.

Lemma stillProcessing_true (ids : list string) (now : Z) (updated : list List) :
  stillProcessing ids now updated = true <->
  exists l, In l updated /\ In (id l) ids /\ isListProcessing parseDate now l = true.
Proof.
  unfold ListsPage.stillProcessing. rewrite existsb_exists.
  split; intros (l & Hl & H); exists l; (split; [exact Hl|]).
  - apply andb_true_iff in H as [H1 H2]. apply includes_In in H1. auto.
  - destruct H as [H1 H2]. apply andb_true_iff. split; [apply includes_In|]; auto.
Qed.

Lemma step_dormant (e : Event) (w : World) :
  dormant w ->
  dormant (step e w) /\
  view (step e w) = view w /\
  listWrites (step e w) = listWrites w /\
  calls (step e w) = calls w.
Proof.
  intros [Hpending Hoff]. unfold dormant.
  destruct e as [|result now|]; cbn [ListsPage.step].
  - unfold callback_start. destruct Hoff as [Hoff|Hoff]; rewrite Hoff.
    + destruct (pollInterval w); cbn [negb]; auto.
    + auto.
  - unfold callback_resume. rewrite Hpending. auto.
  - unfold cleanup. cbn. auto.
Qed.

Lemma run_dormant (trace : list Event) (w : World) :
  dormant w ->
  dormant (run trace w) /\
  view (run trace w) = view w /\
  listWrites (run trace w) = listWrites w /\
  calls (run trace w) = calls w.
Proof.
  revert w. induction trace as [|e trace IH]; intros w Hw.
  - auto.
  - destruct (step_dormant e w Hw) as (Hd & Hv & Hl & Hc).
    destruct (IH _ Hd) as (Hd' & Hv' & Hl' & Hc').
    change (run (e :: trace) w) with (run trace (step e w)).
    rewrite Hv', Hl', Hc'. auto.
Qed.


Lemma filter_none (now : Z) (l : list List) :
  Forall (fun x => isListProcessing parseDate now x = false) l ->
  List.filter (fun x => isListProcessing parseDate now x) l = [].
Proof.
  induction 1 as [|x l Hx _ IH]; [reflexivity|].
  cbn [List.filter]. rewrite Hx. exact IH.
Qed.

Lemma step_no_timer (e : Event) (w : World) :
  pollInterval w = None -> pollInterval (step e w) = None.
Proof.
  intros Hnone. destruct e as [|result now|]; cbn [ListsPage.step].
  - unfold callback_start. rewrite Hnone. exact Hnone.
  - unfold callback_resume. destruct (pending w); [exact Hnone|].
    destruct result as [updated|e]; [destruct (negb _)|]; exact Hnone.
  - reflexivity.
Qed.

Lemma run_no_timer (trace : list Event) (w : World) :
  pollInterval w = None -> pollInterval (run trace w) = None.
Proof.
  revert w. induction trace as [|e trace IH]; intros w Hnone; [exact Hnone|].
  apply (IH (step e w)), step_no_timer, Hnone.
Qed.

(** When some list is processing, the effect tracks the processing lists,
    raises its flag and registers its timer with a delay of five seconds. *)
Lemma pollingEffect_starts (now : Z) (w : World) :
  Exists (fun l => isListProcessing parseDate now l = true) (lists (view w)) ->
  let w' := pollingEffect now w in
  processingListIds w' =
    map id (List.filter (fun l => isListProcessing parseDate now l) (lists (view w))) /\
  isPolling w' = true /\
  pollInterval w' = Some 5000 /\
  view w' = view w /\
  calls w' = calls w.
Proof.
  intros Hsome. unfold ListsPage.pollingEffect.
  destruct (List.filter _ (lists (view w))) as [|x rest] eqn:Hfilter.
  - exfalso. apply Exists_exists in Hsome as (l & Hin & Hl).
    apply list_elem_of_In in Hin.
    assert (Hin' : In l (List.filter (fun l => isListProcessing parseDate now l)
                           (lists (view w)))).
    { apply filter_In. auto. }
    rewrite Hfilter in Hin'. destruct Hin'.
  - cbn. auto.
Qed.

(** Once the effect is cleaned up with no request awaited, no event
    changes the page or reaches the backend any more. *)
Lemma cleanup_without_pending (trace : list Event) (w : World) :
  pending w = 0%nat ->
  view (run trace (cleanup w)) = view w /\
  listWrites (run trace (cleanup w)) = listWrites w /\
  calls (run trace (cleanup w)) = calls w.
Proof.
  intros Hpending.
  destruct (run_dormant trace (cleanup w)) as (_ & Hv & Hl & Hc).
  { split; [exact Hpending | right; reflexivity]. }
  auto.
Qed.

Lemma step_unsettled (e : Event) (w : World) :
  unsettled parseDate (processingListIds w) e = true ->
  view (step e w) = view w /\
  listWrites (step e w) = listWrites w /\
  processingListIds (step e w) = processingListIds w /\
  isPolling (step e w) = isPolling w /\
  pollInterval (step e w) = pollInterval w.
Proof.
  intros He. destruct e as [|result now|]; cbn [ListsPage.step].
  - unfold callback_start. destruct (pollInterval w) eqn:Htimer; [|rewrite Htimer; auto].
    destruct (isPolling w) eqn:Hflag; cbn [negb]; [|rewrite Htimer, Hflag; auto].
    unfold with_pending, add_call. project. auto.
  - unfold callback_resume. destruct (pending w); [auto|].
    unfold with_pending. project.
    cbn [unsettled] in He. apply negb_true_iff in He.
    destruct result as [updated|e]; cbn [settles] in He.
    + rewrite He. project. auto.
    + unfold add_console. project. auto.
  - discriminate He.
Qed.

Lemma run_unsettled (trace : list Event) (w : World) :
  Forall (fun e => unsettled parseDate (processingListIds w) e = true) trace ->
  view (run trace w) = view w /\
  listWrites (run trace w) = listWrites w /\
  processingListIds (run trace w) = processingListIds w /\
  isPolling (run trace w) = isPolling w /\
  pollInterval (run trace w) = pollInterval w.
Proof.
  revert w. induction trace as [|e trace IH]; intros w Hall; [auto|].
  apply Forall_cons in Hall as [He Htrace].
  destruct (step_unsettled e w He) as (Hv & Hl & Hi & Hf & Hp).
  change (run (e :: trace) w) with (run trace (step e w)).
  rewrite <- Hi in Htrace.
  destruct (IH _ Htrace) as (Hv' & Hl' & Hi' & Hf' & Hp').
  rewrite Hv', Hl', Hi', Hf', Hp'. auto.
Qed.

(** A sequence of ticks that each run to completion without settling is
    a trace of unsettled events. *)
Lemma ticks_are_unsettled (ids : list string)
  (results : list (settled (list List) * Z)) :
  Forall (fun item => settles parseDate ids item.1 item.2 = false) results ->
  Forall (fun e => unsettled parseDate ids e = true) (ticks results).
Proof.
  induction 1 as [|[result now] results Hhead _ IH]; [constructor|].
  cbn [ticks flat_map tick fst snd app] in *.
  repeat constructor; [|exact IH].
  cbn [unsettled]. rewrite Hhead. reflexivity.
Qed.

(** With the flag down, the timer may fire as often as it likes. *)
Lemma timer_fires_in_vain (n : nat) (w : World) :
  isPolling w = false -> run (repeat TimerFires n) w = w.
Proof.
  intros Hflag. induction n as [|n IH]; [reflexivity|].
  change (run (repeat TimerFires (S n)) w)
    with (run (repeat TimerFires n) (callback_start w)).
  unfold callback_start. rewrite Hflag.
  destruct (pollInterval w); exact IH.
Qed.

(** The settling tick. Take the polling effect in any state and any
    sequence of events in which the timer fires and requests settle without
    one finding the job finished;
    then let an awaited request resolve with lists none of which, among the
    tracked ones, is still processing: the first tick to do so. Up to that
    point no cell has changed. That tick replaces the whole collection with
    what it fetched, by one [setLists], and lowers the flag. From then on
    every firing of the timer returns at once: it issues no request and
    changes nothing. And when the settling request was the only one
    awaited, no event whatsoever changes the collection, calls [setLists]
    or reaches the backend any more. *)
Theorem settling_tick_replaces_once
  (w : World) (before : list Event) (updated : list List) (now : Z) :
  Forall (fun e => unsettled parseDate (processingListIds w) e = true) before ->
  let w1 := run before w in
  pending w1 <> 0%nat ->
  stillProcessing (processingListIds w) now updated = false ->
  let w2 := step (FetchSettles (Resolved updated) now) w1 in
  (view w1 = view w /\ listWrites w1 = listWrites w) /\
  (view w2 = setLists updated (view w) /\
   lists (view w2) = updated /\
   listWrites w2 = listWrites w ++ [updated] /\
   isPolling w2 = false) /\
  (forall n : nat, run (repeat TimerFires n) w2 = w2) /\
  (pending w1 = 1%nat ->
   forall trace : list Event,
     let w3 := run trace w2 in
     lists (view w3) = updated /\
     listWrites w3 = listWrites w ++ [updated] /\
     calls w3 = calls w2).
Proof.
  intros Hbefore w1 Hawaited Hdone w2.
  destruct (run_unsettled before w Hbefore) as (Hv1 & Hl1 & Hi1 & _ & _).
  fold w1 in Hv1, Hl1, Hi1.
  assert (Hstep : w2 =
            with_poll (processingListIds w1) false (pollInterval w1)
              (write_lists updated
                 (add_console "[FRONTEND] List processing completed, refreshing lists"
                    (with_pending (Nat.pred (pending w1)) w1)))).
  { subst w2. cbn [ListsPage.step]. unfold callback_resume.
    destruct (pending w1) as [|n]; [contradiction|].
    unfold with_pending at 1 2 3. project. rewrite Hi1, Hdone. reflexivity. }
  assert (Hv2 : view w2 = setLists updated (view w)).
  { rewrite Hstep. cbn. rewrite Hv1. reflexivity. }
  assert (Hl2 : listWrites w2 = listWrites w ++ [updated]).
  { rewrite Hstep. cbn. rewrite Hl1. reflexivity. }
  assert (Hf2 : isPolling w2 = false).
  { rewrite Hstep. reflexivity. }
  split; [auto|]. split.
  { rewrite Hv2. auto. }
  split.
  { intros n. apply timer_fires_in_vain, Hf2. }
  intros Hone trace w3.
  destruct (run_dormant trace w2) as (_ & Hv3 & Hl3 & Hc3).
  { split; [|left; exact Hf2]. rewrite Hstep. cbn. rewrite Hone. reflexivity. }
  fold w3 in Hv3, Hl3, Hc3.
  rewrite Hv3, Hl3, Hv2, Hl2. auto.
Qed.

(** C4. When the lists a tick fetches still contain a tracked list that is
    processing, the continuation of that tick, and so the whole tick,
    changes no cell of the page: nothing of the fetched data is applied. *)
Theorem unsettled_tick_keeps_view (w : World) (updated : list List) (now : Z) :
  (exists l, In l updated /\ In (id l) (processingListIds w) /\
             isListProcessing parseDate now l = true) ->
  let w' := step (FetchSettles (Resolved updated) now) w in
  let w'' := run (tick (Resolved updated) now) w in
  (view w' = view w /\ listWrites w' = listWrites w /\
   isPolling w' = isPolling w /\ pollInterval w' = pollInterval w) /\
  (view w'' = view w /\ listWrites w'' = listWrites w /\
   isPolling w'' = isPolling w /\ pollInterval w'' = pollInterval w).
Proof.
  intros Hstill. apply stillProcessing_true in Hstill.
  assert (Hresume : forall v : World,
            processingListIds v = processingListIds w ->
            let v' := callback_resume parseDate (Resolved updated) now v in
            view v' = view v /\ listWrites v' = listWrites v /\
            isPolling v' = isPolling v /\ pollInterval v' = pollInterval v).
  { intros v Hids. unfold callback_resume. destruct (pending v); [auto|].
    unfold with_pending. project. rewrite Hids, Hstill. project. auto. }
  split; [exact (Hresume w eq_refl)|].
  cbn [ListsPage.run tick fold_left ListsPage.step].
  unfold callback_start.
  destruct (pollInterval w) as [delay|] eqn:Hdelay; [|rewrite <- Hdelay; exact (Hresume w eq_refl)].
  destruct (isPolling w) eqn:Hflag; cbn [negb].
  - destruct (Hresume (with_pending (S (pending w)) (add_call getLists w)) eq_refl)
      as (Hv & Hl & Hf & Hp).
    rewrite Hv, Hl, Hf, Hp. cbn. auto.
  - destruct (Hresume w eq_refl) as (Hv & Hl & Hf & Hp).
    rewrite Hv, Hl, Hf, Hp. auto.
Qed.


(** C7. When no list of the collection is processing, the polling effect
    returns without doing anything. Run on a page with no timer and no
    awaited request, it leaves the page with no timer, and whatever events
    follow, no request is ever issued. *)
Theorem no_processing_list_no_timer (now : Z) (w : World) :
  Forall (fun l => isListProcessing parseDate now l = false) (lists (view w)) ->
  pollingEffect now w = w /\
  (pollInterval w = None -> pending w = 0%nat ->
   forall trace : list Event,
     pollInterval (run trace (pollingEffect now w)) = None /\
     calls (run trace (pollingEffect now w)) = calls w).
Proof.
  intros Hnone.
  assert (Hsame : pollingEffect now w = w).
  { unfold ListsPage.pollingEffect. rewrite (filter_none now _ Hnone). reflexivity. }
  split; [exact Hsame|]. rewrite Hsame.
  intros Htimer Hpending trace. split.
  - apply run_no_timer, Htimer.
  - apply run_dormant. split; auto.
Qed.

End PollingFacts.

(** ** The mutation handlers *)

Section HandlerFacts.
Variable backend : Backend.

Ltac run_handler :=
  unfold exec, handleGenerateList, handleRename, handleDelete, fetchLists,
    await_call, await_getLists, update, toast, modify, render,
    mbind, mret, M_bind, M_ret.

(** C8. When the call behind a mutation is rejected, the handler ends with
    the cells as they were, but for its own busy flag which is down: the
    list collection, the submitted form fields and the open dialog are
    unchanged, [setLists] is not called, one toast carrying the error is
    added, and the backend has been called once, with no second attempt.
    This holds for [handleGenerateList], [handleRename] and
    [handleDelete]. *)
Theorem failed_mutation_keeps_state (w : World) (e : thrown) :
  (trim (searchUrl (view w)) <> "" ->
   reply backend (length (calls w)) (populateList (requestData (view w))) = Rejected e ->
   let w' := exec (handleGenerateList backend) w in
   view w' = setIsLoading false (view w) /\
   lists (view w') = lists (view w) /\
   searchUrl (view w') = searchUrl (view w) /\
   profileLimit (view w') = profileLimit (view w) /\
   collectOnly (view w') = collectOnly (view w) /\
   sendNote (view w') = sendNote (view w) /\
   noteText (view w') = noteText (view w) /\
   isModalOpen (view w') = isModalOpen (view w) /\
   listWrites w' = listWrites w /\
   toasts w' = toasts w ++ [error_toast e "Failed to generate list"] /\
   calls w' = calls w ++ [populateList (requestData (view w))]) /\
  (forall target : List,
   listToRename (view w) = Some target ->
   trim (newListName (view w)) <> "" ->
   reply backend (length (calls w))
     (updateList (id target) (trim (newListName (view w)))) = Rejected e ->
   let w' := exec (handleRename backend) w in
   view w' = setIsRenaming false (view w) /\
   lists (view w') = lists (view w) /\
   listToRename (view w') = listToRename (view w) /\
   newListName (view w') = newListName (view w) /\
   renameDialogOpen (view w') = renameDialogOpen (view w) /\
   listWrites w' = listWrites w /\
   toasts w' = toasts w ++ [error_toast e "Failed to rename list"] /\
   calls w' = calls w ++ [updateList (id target) (trim (newListName (view w)))]) /\
  (forall target : List,
   listToDelete (view w) = Some target ->
   reply backend (length (calls w)) (deleteList (id target)) = Rejected e ->
   let w' := exec (handleDelete backend) w in
   view w' = setIsDeleting false (view w) /\
   lists (view w') = lists (view w) /\
   listToDelete (view w') = listToDelete (view w) /\
   deleteDialogOpen (view w') = deleteDialogOpen (view w) /\
   listWrites w' = listWrites w /\
   toasts w' = toasts w ++ [error_toast e "Failed to delete list"] /\
   calls w' = calls w ++ [deleteList (id target)]).
Proof.
  split; [|split].
  - intros Hurl Hreply. run_handler. cbn.
    destruct (String.eqb_spec (trim (searchUrl (view w))) ""); [contradiction|].
    cbn. rewrite Hreply. cbn. auto 15.
  - intros target Htarget Hname Hreply. run_handler. cbn.
    rewrite Htarget.
    destruct (String.eqb_spec (trim (newListName (view w))) ""); [contradiction|].
    cbn. rewrite Hreply. cbn. auto 15.
  - intros target Htarget Hreply. run_handler. cbn.
    rewrite Htarget. cbn. rewrite Hreply. cbn. auto 15.
Qed.
End HandlerFacts.

(** ** The properties at the sample data *)

(** C1 on the sample list: processing one second after its creation, no
    longer at ten minutes sharp, and never once it has five profiles. *)
Lemma isListProcessing_iff_witness :
  isListProcessing Samples.clock (Samples.midnight + 1000) Samples.fresh = true /\
  isListProcessing Samples.clock (Samples.midnight + 600000) Samples.fresh = false /\
  isListProcessing Samples.clock (Samples.midnight + 1000) Samples.populated = false.
Proof.
  split; [|split].
  - refine (proj1 (proj2
      (isListProcessing_iff Samples.clock (Samples.midnight + 1000) Samples.fresh))
      "2024-01-01T00:00:00.000Z" Samples.midnight eq_refl eq_refl _ eq_refl _).
    + discriminate.
    + vm_compute. reflexivity.
  - refine (proj1 (proj2 (proj2
      (isListProcessing_iff Samples.clock (Samples.midnight + 600000) Samples.fresh)))
      "2024-01-01T00:00:00.000Z" Samples.midnight eq_refl eq_refl _).
    vm_compute. discriminate.
  - refine (proj2 (proj2 (proj2
      (isListProcessing_iff Samples.clock (Samples.midnight + 1000) Samples.populated)))
      _).
    discriminate.
Defined.

(** C10 on a list that reports a zero [count] and no [profile_count], the
    instant it is created. *)
Lemma isListProcessing_missing_field_witness :
  profile_count Samples.count_only = None /\
  isListProcessing Samples.clock Samples.midnight Samples.count_only = false.
Proof.
  split; [reflexivity|].
  apply (isListProcessing_missing_field Samples.clock Samples.midnight Samples.count_only).
  left. reflexivity.
Defined.

(** C2 does not hold of the code. The sample page polls for [fresh]; the
    timer fires and the callback issues its request; the effect is cleaned
    up, which lowers the flag and clears the timer; then the request
    resolves with the list populated. The continuation does not read the
    flag again: it calls [setLists] and the collection changes after the
    teardown. *)
Theorem response_after_cleanup_is_applied :
  let torn_down := run Samples.clock [TimerFires; Cleanup] Samples.polling in
  let later :=
    step Samples.clock
      (FetchSettles (Resolved [Samples.populated]) (Samples.midnight + 5200))
      torn_down in
  (isPolling torn_down = false /\
   pollInterval torn_down = None /\
   pending torn_down = 1%nat /\
   lists (view torn_down) = [Samples.fresh] /\
   listWrites torn_down = []) /\
  (lists (view later) = [Samples.populated] /\
   listWrites later = [[Samples.populated]] /\
   view later <> view torn_down).
Proof.
  vm_compute. repeat split; discriminate.
Qed.

(** C3 does not hold of the code. The sample page polls for [fresh]. The
    timer fires and the callback awaits its request; five seconds later the
    request is still awaited, the flag is still up, and the timer fires
    again, so that a second request is awaited. The first request resolves
    with the list populated: the tick finds the job finished, replaces the
    collection and lowers the flag. Then the second request resolves, with
    seven profiles by now. Its continuation does not read the flag: it calls
    [setLists] too, so the collection is replaced twice and a tick that
    follows the settling one changes it. *)
Theorem overlapping_response_is_applied_again :
  let w1 := run Samples.clock [TimerFires; TimerFires] Samples.polling in
  let w2 :=
    step Samples.clock
      (FetchSettles (Resolved [Samples.populated]) (Samples.midnight + 10200)) w1 in
  let w3 :=
    step Samples.clock
      (FetchSettles (Resolved [MoreSamples.grown]) (Samples.midnight + 10400)) w2 in
  (pending w1 = 2%nat /\ isPolling w1 = true /\ listWrites w1 = []) /\
  (lists (view w2) = [Samples.populated] /\
   listWrites w2 = [[Samples.populated]] /\
   isPolling w2 = false) /\
  (lists (view w3) = [MoreSamples.grown] /\
   listWrites w3 = [[Samples.populated]; [MoreSamples.grown]] /\
   view w3 <> view w2).
Proof.
  vm_compute. repeat split; discriminate.
Qed.


(** The settling tick on the sample page: two unsettled ticks, the timer
    firing a third time, then the populated list arriving, then two more firings of the
    timer. *)
Lemma settling_tick_replaces_once_witness :
  let w1 := run Samples.clock (ticks Samples.unsettled_ticks ++ [TimerFires])
              Samples.polling in
  let w2 :=
    step Samples.clock
      (FetchSettles (Resolved [Samples.populated]) (Samples.midnight + 15200)) w1 in
  let w3 := run Samples.clock [TimerFires; TimerFires] w2 in
  pending w1 = 1%nat /\
  lists (view w2) = [Samples.populated] /\
  lists (view w3) = [Samples.populated] /\
  listWrites w3 = [[Samples.populated]] /\
  calls w3 = calls w2.
Proof.
  intros w1 w2 w3.
  destruct (settling_tick_replaces_once Samples.clock Samples.polling
              (ticks Samples.unsettled_ticks ++ [TimerFires])
              [Samples.populated] (Samples.midnight + 15200))
    as (_ & (_ & Hlists & _) & _ & Hafter).
  - apply Forall_app. split; [|repeat constructor].
    apply ticks_are_unsettled. repeat constructor.
  - vm_compute. discriminate.
  - vm_compute. reflexivity.
  - fold w1 w2 in Hlists, Hafter.
    destruct (Hafter eq_refl [TimerFires; TimerFires]) as (H1 & H2 & H3).
    fold w3 in H1, H2, H3. repeat split; assumption.
Defined.

(** C4 on the sample page: the fetched list is still empty three seconds
    after its creation. *)
Lemma unsettled_tick_keeps_view_witness :
  view (run Samples.clock (tick (Resolved [Samples.fresh]) (Samples.midnight + 3000))
          Samples.polling)
  = view Samples.polling.
Proof.
  refine (proj1 (proj2
    (unsettled_tick_keeps_view Samples.clock Samples.polling [Samples.fresh]
       (Samples.midnight + 3000) _))).
  exists Samples.fresh. repeat split.
  - left. reflexivity.
  - left. reflexivity.
Defined.


(** C7 on a page that holds the populated list only. *)
Lemma no_processing_list_no_timer_witness :
  let w := mounted [Samples.populated] in
  pollingEffect Samples.clock Samples.midnight w = w /\
  calls (run Samples.clock [TimerFires; TimerFires]
           (pollingEffect Samples.clock Samples.midnight w)) = [].
Proof.
  intros w.
  destruct (no_processing_list_no_timer Samples.clock Samples.midnight w) as [Hsame Hquiet].
  { repeat constructor. }
  split; [exact Hsame|].
  exact (proj2 (Hquiet eq_refl eq_refl [TimerFires; TimerFires])).
Defined.

(** C8 on the filled-in page, against a backend that answers every
    mutation with a 429 whose body is [{"detail": "rate limited"}]. *)
Lemma failed_mutation_keeps_state_witness :
  let after := fun handler => exec (handler Samples.refusing) Samples.filled_in in
  (lists (view (after handleGenerateList)) = [Samples.fresh] /\
   searchUrl (view (after handleGenerateList)) = "https://x/search?kw=eng" /\
   description <$> toasts (after handleGenerateList) = ["rate limited"]) /\
  (lists (view (after handleRename)) = [Samples.fresh] /\
   newListName (view (after handleRename)) = "Engineers EU" /\
   description <$> toasts (after handleRename) = ["rate limited"]) /\
  (lists (view (after handleDelete)) = [Samples.fresh] /\
   listToDelete (view (after handleDelete)) = Some Samples.fresh /\
   description <$> toasts (after handleDelete) = ["rate limited"]).
Proof.
  intros after.
  destruct (failed_mutation_keeps_state Samples.refusing Samples.filled_in
              (ErrorObj "rate limited")) as (Hgenerate & Hrename & Hdelete).
  split; [|split].
  - destruct Hgenerate as (_ & Hlists & Hurl & _ & _ & _ & _ & _ & _ & Htoasts & _).
    { vm_compute. discriminate. }
    { reflexivity. }
    subst after. cbv beta. rewrite Hlists, Hurl, Htoasts. repeat split.
  - destruct (Hrename Samples.fresh) as (_ & Hlists & _ & Hname & _ & _ & Htoasts & _).
    { reflexivity. }
    { vm_compute. discriminate. }
    { reflexivity. }
    subst after. cbv beta. rewrite Hlists, Hname, Htoasts. repeat split.
  - destruct (Hdelete Samples.fresh) as (_ & Hlists & Htarget & _ & _ & Htoasts & _).
    { reflexivity. }
    { reflexivity. }
    subst after. cbv beta. rewrite Hlists, Htarget, Htoasts. repeat split.
Defined.

(** * Further properties *)

(** ** More on the API client *)

Section ApiMoreFacts.
Variable env : Env.
Variable engine : Engine.

(** X1. [apiRequest] resolves, with [j], exactly when [fetch] resolves with
    a response that is ok and whose body is the JSON document [j]. *)
Theorem apiRequest_resolves_iff
  (fetch : Request -> settled Response) (endpoint : string)
  (options : RequestInit) (j : json) :
  apiRequest env engine fetch endpoint options = Resolved j <->
  exists r, fetch (apiRequest_request env endpoint options) = Resolved r /\
            ok r = true /\ json_body r = Some j.
Proof.
  unfold apiRequest, apiRequest_settle.
  destruct (fetch _) as [r|e].
  - destruct (ok r) eqn:Hok; cbn [negb].
    + destruct (json_body r) as [j'|] eqn:Hbody.
      * split.
        -- intros [= ->]. exists r. auto.
        -- intros (r' & [= <-] & _ & Hj). congruence.
      * split; [discriminate|]. intros (r' & [= <-] & _ & Hj). congruence.
    + split; [discriminate|]. intros (r' & [= <-] & Hok' & _). congruence.
  - split; [discriminate|]. intros (r' & [=] & _).
Qed.

(** X2. A rejection of [fetch] reaches the caller unchanged, and whatever
    [apiRequest] throws on its own account (for a response that is not ok or
    that has no JSON body) is an [Error] instance: it rejects with something
    that is not an [Error] only when [fetch] itself did, which is the only
    case where a caller shows its fallback description. *)
Theorem apiRequest_rejections
  (fetch : Request -> settled Response) (endpoint : string)
  (options : RequestInit) :
  (forall e, fetch (apiRequest_request env endpoint options) = Rejected e ->
     apiRequest env engine fetch endpoint options = Rejected e) /\
  (apiRequest env engine fetch endpoint options = Rejected NonError ->
     fetch (apiRequest_request env endpoint options) = Rejected NonError) /\
  (forall e fallback,
     apiRequest env engine fetch endpoint options = Rejected e ->
     fetch (apiRequest_request env endpoint options) <> Rejected NonError ->
     exists message, e = ErrorObj message /\ message_or e fallback = message).
Proof.
  assert (Hnon : apiRequest env engine fetch endpoint options = Rejected NonError ->
                 fetch (apiRequest_request env endpoint options) = Rejected NonError).
  { unfold apiRequest, apiRequest_settle. intros Hthrown.
    destruct (fetch _) as [r|e]; [exfalso|congruence].
    destruct (ok r); cbn [negb] in Hthrown.
    - destruct (json_body r); discriminate.
    - unfold error_of in Hthrown.
      destruct (error_document r); try discriminate;
        destruct (truthy _); discriminate. }
  split; [|split].
  - intros e He. unfold apiRequest. rewrite He. reflexivity.
  - exact Hnon.
  - intros e fallback Hthrown Hfetch. destruct e as [message|].
    + exists message. auto.
    + contradiction (Hfetch (Hnon Hthrown)).
Qed.

(** X3. Whatever headers the caller passes, the configured key, when not
    empty, is what [X-API-KEY] carries; a [Content-Type] of the caller
    replaces the default; and every other header of the caller is passed on
    as it is, with nothing else added. *)
Theorem apiRequest_request_caller_headers
  (endpoint : string) (options : RequestInit) :
  let caller := default ∅ (headers options) in
  let h := req_headers (apiRequest_request env endpoint options) in
  (API_KEY env <> "" -> h !! "X-API-KEY" = Some (API_KEY env)) /\
  (API_KEY env = "" -> h !! "X-API-KEY" = caller !! "X-API-KEY") /\
  (forall v, caller !! "Content-Type" = Some v -> h !! "Content-Type" = Some v) /\
  (forall k, k <> "X-API-KEY" -> k <> "Content-Type" -> h !! k = caller !! k).
Proof.
  intros caller h. subst h. unfold apiRequest_request. cbn [req_headers].
  fold caller.
  assert (Hbase : forall k, k <> "Content-Type" ->
            (caller ∪ {[ "Content-Type" := "application/json" ]}) !! k = caller !! k).
  { intros k Hk. rewrite lookup_union, lookup_singleton_ne by congruence.
    destruct (caller !! k); reflexivity. }
  destruct (String.eqb_spec (API_KEY env) "") as [E|E]; cbn [negb].
  - repeat split.
    + intros H. contradiction.
    + intros _. apply Hbase. discriminate.
    + intros v Hv. apply lookup_union_Some_raw. left. exact Hv.
    + intros k _ Hk. apply Hbase, Hk.
  - repeat split.
    + intros _. apply lookup_insert_eq.
    + intros H. contradiction.
    + intros v Hv. rewrite lookup_insert_ne by discriminate.
      apply lookup_union_Some_raw. left. exact Hv.
    + intros k Hkey Hk. rewrite lookup_insert_ne by congruence. apply Hbase, Hk.
Qed.

(** X4. Every member of [api] uses one of four methods; the read members
    and the deletion send no body, and a member that sends a body uses POST
    or PATCH. The address is the configured base followed by the path. *)
Theorem request_of_method_and_body (c : ApiCall) :
  let r := request_of env c in
  req_url r = API_BASE_URL env +:+ (api c).1 /\
  (req_method r = Some "GET" \/ req_method r = Some "POST" \/
   req_method r = Some "PATCH" \/ req_method r = Some "DELETE") /\
  (req_method r = Some "GET" \/ req_method r = Some "DELETE" -> req_body r = None) /\
  (req_method r = Some "POST" -> req_body r <> None) /\
  (req_method r = Some "GET" <->
   c = health \/ c = getLists \/ (exists i, c = getList i) \/
   (exists i, c = getListProspects i) \/ c = getSenders).
Proof.
  destruct c; cbn; repeat split; try tauto; try discriminate;
    try (intros [H|H]; discriminate H);
    try (intros H; discriminate H);
    try (intros _; eauto 10; fail);
    try (intros [H|[H|[[i H]|[[i H]|H]]]]; discriminate H).
Qed.

(** X5. The payload that the generation dialog submits always has its five
    members and no other: the search URL, the limit and the two flags as
    the form holds them, and the note text whether or not a note is to be
    sent. *)
Theorem populate_body_of_form (v : View) :
  exists fields,
    populate_body (requestData v) = JObj fields /\
    fields !! "search_url" = Some (JStr (searchUrl v)) /\
    fields !! "profile_limit" = Some (JNum (profileLimit v)) /\
    fields !! "collect_only" = Some (JBool (collectOnly v)) /\
    fields !! "send_note" = Some (JBool (sendNote v)) /\
    fields !! "note_text" = Some (JStr (noteText v)) /\
    size fields = 5%nat.
Proof.
  eexists. split; [reflexivity|].
  cbn [requestData PopulateListRequest.search_url PopulateListRequest.profile_limit
       PopulateListRequest.collect_only PopulateListRequest.send_note
       PopulateListRequest.note_text optional_field].
  repeat split; by simplify_map_eq.
Qed.

End ApiMoreFacts.

(** ** More on the classifier and the polling effect *)

Section PollingMoreFacts.
Variable parseDate : string -> option Z.

Abbreviation step := (step parseDate).
Abbreviation run := (run parseDate).
Abbreviation stillProcessing := (stillProcessing parseDate).
Abbreviation isListProcessing := (isListProcessing parseDate).

Ltac project :=
  cbn [negb view listWrites processingListIds isPolling pollInterval pending
       toasts calls console].

(** X6. Time only moves a list out of processing: a list that is
    processing at some instant was so at every earlier instant, and a list
    that is not processing never becomes so later. *)
Theorem isListProcessing_antitone (now later : Z) (l : List) :
  now <= later ->
  (isListProcessing later l = true -> isListProcessing now l = true) /\
  (isListProcessing now l = false -> isListProcessing later l = false).
Proof.
  intros Hle.
  assert (H : isListProcessing later l = true -> isListProcessing now l = true).
  { intros Hlater.
    apply isListProcessing_true in Hlater as [Hzero (s & t & Hs & Hne & Ht & Hlt)].
    apply isListProcessing_true. split; [exact Hzero|].
    exists s, t. repeat split; auto. lia. }
  split; [exact H|].
  intros Hnow. destruct (isListProcessing later l); [|reflexivity].
  rewrite H in Hnow; [discriminate | reflexivity].
Qed.

(** X7. No list is processing for ever: every list has an instant from
    which on the classifier answers false, whatever its [profile_count]. *)
Theorem isListProcessing_expires (l : List) :
  exists deadline : Z,
    forall now, deadline <= now -> isListProcessing now l = false.
Proof.
  destruct (created_at l) as [s|] eqn:Hs.
  - destruct (parseDate s) as [t|] eqn:Ht.
    + exists (t + 10 * 60 * 1000). intros now Hnow.
      apply not_true_iff_false. intros Htrue.
      apply isListProcessing_true in Htrue as [_ (s' & t' & Hs' & _ & Ht' & Hlt)].
      rewrite Hs in Hs'. injection Hs' as <-.
      rewrite Ht in Ht'. injection Ht' as <-. lia.
    + exists 0. intros now _. apply not_true_iff_false. intros Htrue.
      apply isListProcessing_true in Htrue as [_ (s' & t' & Hs' & _ & Ht' & _)].
      congruence.
  - exists 0. intros now _. apply not_true_iff_false. intros Htrue.
    apply isListProcessing_true in Htrue as [_ (s' & t' & Hs' & _)].
    congruence.
Qed.

Lemma stillProcessing_false (ids : list string) (now : Z) (updated : list List) :
  stillProcessing ids now updated = false <->
  forall l, In l updated -> In (id l) ids -> isListProcessing now l = false.
Proof.
  rewrite <- not_true_iff_false, stillProcessing_true. split.
  - intros Hnone l Hl Hid. apply not_true_iff_false. intros Htrue.
    apply Hnone. eauto.
  - intros Hall (l & Hl & Hid & Htrue). rewrite (Hall l Hl Hid) in Htrue.
    discriminate.
Qed.

(** X8. A tick finds the job finished exactly when no fetched list with a
    tracked identifier is processing. Fetched lists that the effect does
    not track do not count, so an empty answer, or an answer in which the
    tracked lists are gone, finishes the job. *)
Theorem stillProcessing_false_iff (ids : list string) (now : Z)
  (updated : list List) :
  (stillProcessing ids now updated = false <->
   forall l, In l updated -> In (id l) ids -> isListProcessing now l = false) /\
  stillProcessing ids now [] = false /\
  ((forall l, In l updated -> ~ In (id l) ids) ->
   stillProcessing ids now updated = false).
Proof.
  pose proof (stillProcessing_false ids now updated) as Hiff.
  split; [exact Hiff|]. split; [reflexivity|].
  intros Huntracked. apply Hiff. intros l Hl Hid.
  contradiction (Huntracked l Hl Hid).
Qed.

(** What one event does to the closure of the effect. *)
Lemma step_closure (e : Event) (w : World) :
  processingListIds (step e w) = processingListIds w /\
  (isPolling w = false -> isPolling (step e w) = false) /\
  (Trace.is_cleanup e = false -> pollInterval (step e w) = pollInterval w) /\
  (Trace.is_cleanup e = true ->
   pollInterval (step e w) = None /\ isPolling (step e w) = false).
Proof.
  destruct e as [|result now|]; cbn [ListsPage.step Trace.is_cleanup].
  - unfold callback_start. destruct (pollInterval w) eqn:Htimer.
    + destruct (isPolling w) eqn:Hflag; cbn [negb];
        repeat split; auto; discriminate.
    + repeat split; auto; discriminate.
  - unfold callback_resume. destruct (pending w).
    + repeat split; auto; discriminate.
    + destruct result as [updated|e]; [destruct (negb _)|];
        repeat split; auto; discriminate.
  - repeat split; auto; discriminate.
Qed.

Lemma run_flag_down (trace : list Event) (w : World) :
  isPolling w = false -> isPolling (run trace w) = false.
Proof.
  revert w. induction trace as [|e trace IH]; intros w Hflag; [exact Hflag|].
  apply (IH (step e w)). exact (proj1 (proj2 (step_closure e w)) Hflag).
Qed.

(** X9. During the life of an effect the set of tracked identifiers never
    changes, the flag once down is never raised again, and no event but the
    cleanup clears the timer: after the job is found finished the interval
    stays registered until the cleanup runs. *)
Theorem run_closure (trace : list Event) (w : World) :
  processingListIds (run trace w) = processingListIds w /\
  (isPolling w = false -> isPolling (run trace w) = false) /\
  (forallb (fun e => negb (Trace.is_cleanup e)) trace = true ->
   pollInterval (run trace w) = pollInterval w) /\
  (existsb Trace.is_cleanup trace = true ->
   pollInterval (run trace w) = None /\ isPolling (run trace w) = false).
Proof.
  revert w. induction trace as [|e trace IH]; intros w.
  - repeat split; auto; discriminate.
  - change (run (e :: trace) w) with (run trace (step e w)).
    destruct (step_closure e w) as (Hi & Hf & Hkeep & Hclear).
    destruct (IH (step e w)) as (Hi' & Hf' & Hkeep' & Hclear').
    repeat split.
    + congruence.
    + auto.
    + cbn [forallb]. intros Hall. apply andb_true_iff in Hall as [He Htrace].
      apply negb_true_iff in He. rewrite Hkeep' by exact Htrace. auto.
    + cbn [existsb] in H. destruct (Trace.is_cleanup e) eqn:He.
      * apply run_no_timer. apply Hclear. reflexivity.
      * apply Hclear'. exact H.
    + cbn [existsb] in H. destruct (Trace.is_cleanup e) eqn:He.
      * apply Hf'. apply Hclear. reflexivity.
      * apply Hclear'. exact H.
Qed.

Lemma step_calls (e : Event) (w : World) :
  calls (step e w) = calls w \/
  (Trace.is_fire e = true /\ calls (step e w) = calls w ++ [getLists]).
Proof.
  destruct e as [|result now|]; cbn [ListsPage.step Trace.is_fire].
  - unfold callback_start. destruct (pollInterval w); [|auto].
    destruct (isPolling w); cbn [negb]; auto.
  - left. unfold callback_resume. destruct (pending w); [reflexivity|].
    destruct result as [updated|e]; [destruct (negb _)|]; reflexivity.
  - left. reflexivity.
Qed.

(** X10. The polling effect reaches the backend through [api.getLists()]
    only, and at most once for each time the timer fires. *)
Theorem run_calls_getLists (trace : list Event) (w : World) :
  exists n : nat,
    calls (run trace w) = calls w ++ repeat getLists n /\
    (n <= Trace.fires trace)%nat.
Proof.
  revert w. induction trace as [|e trace IH]; intros w.
  - exists 0%nat. split; [symmetry; apply app_nil_r | apply Nat.le_0_l].
  - change (run (e :: trace) w) with (run trace (step e w)).
    destruct (IH (step e w)) as (n & Hcalls & Hn).
    unfold Trace.fires in *. cbn [List.filter].
    destruct (step_calls e w) as [Hsame|[Hfire Hone]].
    + exists n. rewrite Hcalls, Hsame. split; [reflexivity|].
      destruct (Trace.is_fire e); cbn [length]; lia.
    + exists (S n). rewrite Hcalls, Hone, Hfire, <- app_assoc.
      split; [reflexivity | cbn [length]; lia].
Qed.

Lemma step_writes (e : Event) (w : World) :
  (listWrites (step e w) = listWrites w /\ view (step e w) = view w) \/
  (exists updated now,
     e = FetchSettles (Resolved updated) now /\
     listWrites (step e w) = listWrites w ++ [updated] /\
     view (step e w) = setLists updated (view w)).
Proof.
  destruct e as [|result now|]; cbn [ListsPage.step].
  - left. unfold callback_start. destruct (pollInterval w); [|auto].
    destruct (isPolling w); cbn [negb]; auto.
  - unfold callback_resume. destruct (pending w); [auto|].
    destruct result as [updated|e]; [|auto].
    destruct (negb _); [|auto].
    right. exists updated, now. auto.
  - left. auto.
Qed.

(** X11. The polling effect changes no cell but the collection, and writes
    nothing into it but what a request resolved with: its writes are a
    subsequence of the resolved answers, in their order, and the collection
    is the last of them, or the original one if there is none. *)
Theorem run_writes_are_fetched (trace : list Event) (w : World) :
  exists writes : list (list List),
    listWrites (run trace w) = listWrites w ++ writes /\
    sublist writes (Trace.payloads trace) /\
    view (run trace w) =
      match last writes with
      | Some updated => setLists updated (view w)
      | None => view w
      end.
Proof.
  revert w. induction trace as [|e trace IH]; intros w.
  - exists []. split; [symmetry; apply app_nil_r|]. split; [constructor|reflexivity].
  - change (run (e :: trace) w) with (run trace (step e w)).
    destruct (IH (step e w)) as (writes & Hlog & Hsub & Hview).
    destruct (step_writes e w) as [[Hl Hv]|(updated & now & -> & Hl & Hv)].
    + exists writes. rewrite Hlog, Hl, Hview, Hv. split; [reflexivity|].
      split; [|reflexivity].
      change (Trace.payloads (e :: trace))
        with (match e with
              | FetchSettles (Resolved u) _ => [u]
              | _ => []
              end ++ Trace.payloads trace).
      apply sublist_inserts_l. exact Hsub.
    + exists (updated :: writes). rewrite Hlog, Hl, Hview, Hv, <- app_assoc.
      split; [reflexivity|]. split.
      * cbn. apply sublist_skip. exact Hsub.
      * destruct writes as [|u writes]; [reflexivity|].
        change (last (updated :: u :: writes)) with (last (u :: writes)).
        destruct (last (u :: writes)) eqn:Hlast; [reflexivity|].
        apply last_None in Hlast. discriminate Hlast.
Qed.

(** X12. Once the effect is cleaned up with no request awaited, nothing
    happens any more: whatever events follow, the cells, the writes and the
    backend calls stay as they were, the flag is down and no timer is
    registered. *)
Theorem cleanup_is_final (trace : list Event) (w : World) :
  pending w = 0%nat ->
  let w' := run trace (cleanup w) in
  view w' = view w /\
  listWrites w' = listWrites w /\
  calls w' = calls w /\
  isPolling w' = false /\
  pollInterval w' = None.
Proof.
  intros Hpending w'.
  destruct (run_dormant parseDate trace (cleanup w)) as (_ & Hv & Hl & Hc).
  { split; [exact Hpending | right; reflexivity]. }
  fold w' in Hv, Hl, Hc.
  repeat split; auto.
  - apply run_flag_down. reflexivity.
  - apply run_no_timer. reflexivity.
Qed.

(** X13. The staleness window ends the polling: when every fetched list
    whose date can be read was created ten minutes ago or more, an awaited
    request that resolves with these lists is applied and lowers the flag,
    even if every [profile_count] is still zero. *)
Theorem stale_answer_settles (w : World) (updated : list List) (now : Z) :
  pending w <> 0%nat ->
  (forall l s t,
     In l updated -> created_at l = Some s -> parseDate s = Some t ->
     t + 10 * 60 * 1000 <= now) ->
  let w' := step (FetchSettles (Resolved updated) now) w in
  view w' = setLists updated (view w) /\
  listWrites w' = listWrites w ++ [updated] /\
  isPolling w' = false.
Proof.
  intros Hawaited Hstale.
  assert (Hdone : stillProcessing (processingListIds w) now updated = false).
  { apply stillProcessing_false. intros l Hl _.
    apply not_true_iff_false. intros Htrue.
    apply isListProcessing_true in Htrue as [_ (s & t & Hs & _ & Ht & Hlt)].
    specialize (Hstale l s t Hl Hs Ht). lia. }
  cbv zeta. cbn [ListsPage.step]. unfold callback_resume.
  destruct (pending w) as [|n]; [contradiction|].
  unfold with_pending. project. rewrite !Hdone. cbn. repeat split.
Qed.

End PollingMoreFacts.

(** ** More on the handlers of the lists page *)

Import ListsPageRest.

(** [trim] on the white space of the samples. *)
Lemma trim_white_space :
  trim MoreSamples.white_space = "" /\
  trim (MoreSamples.white_space +:+ "a b" +:+ MoreSamples.white_space) = "a b".
Proof. split; reflexivity. Qed.

Section HandlerMoreFacts.
Variable backend : Backend.

Ltac run_handler :=
  unfold exec, handleGenerateList, handleRename, handleDelete, fetchLists,
    handleRenameClick, handleDeleteClick, fetchSenders,
    await_call, await_getLists, update, toast, modify, render,
    mbind, mret, M_bind, M_ret.

Ltac quiet Hnil :=
  exists [], []; repeat split;
  [apply Hnil | cbn; lia | apply Hnil | cbn; lia
  | intros ? [] | intros H; contradiction].

Ltac one_call Hnil :=
  eexists [_], []; repeat split;
  [cbn; lia | apply Hnil | cbn; lia | intros ? []].

Ltac two_calls Hnil :=
  eexists [_; _], []; repeat split;
  [cbn; lia | apply Hnil | cbn; lia | intros ? []].

Ltac refreshed Hnil Hlists :=
  eexists [_; _], [_]; repeat split;
  [cbn; lia | cbn; lia
  | intros ? [<-|[]]; eexists; exact Hlists].

(** X14. With a search URL that is empty or made of white space only,
    [handleGenerateList] shows one error toast and does nothing else: no
    cell changes, not even the busy flag, and the backend is not called. *)
Theorem handleGenerateList_blank_url (w : World) :
  trim (searchUrl (view w)) = "" ->
  exec (handleGenerateList backend) w = add_toast blank_url_toast w.
Proof.
  intros Hblank. run_handler. cbn. rewrite Hblank. reflexivity.
Qed.

(** X15. When the backend accepts the population request,
    [handleGenerateList] calls it once and then fetches the lists once. The
    dialog is closed and the form is back to its defaults whether or not
    that fetch succeeds. If it does, the collection is what it returned and
    the only toast is the success; if it fails, the collection is the old
    one and an error toast follows the success. Both busy flags end down. *)
Theorem handleGenerateList_accepted (w : World) :
  trim (searchUrl (view w)) <> "" ->
  reply backend (length (calls w)) (populateList (requestData (view w))) = Resolved tt ->
  let w' := exec (handleGenerateList backend) w in
  let started := success_toast "List generation started successfully" in
  calls w' = calls w ++ [populateList (requestData (view w)); getLists] /\
  (isModalOpen (view w') = false /\
   searchUrl (view w') = "" /\
   profileLimit (view w') = 20 /\
   collectOnly (view w') = false /\
   sendNote (view w') = false /\
   noteText (view w') = "") /\
  (isLoading (view w') = false /\ isLoadingLists (view w') = false) /\
  match reply_lists backend (S (length (calls w))) with
  | Resolved listsData =>
      lists (view w') = listsData /\
      listWrites w' = listWrites w ++ [listsData] /\
      toasts w' = toasts w ++ [started]
  | Rejected e =>
      lists (view w') = lists (view w) /\
      listWrites w' = listWrites w /\
      toasts w' = toasts w ++ [started; error_toast e "Failed to load lists"]
  end.
Proof.
  intros Hurl Hreply. run_handler. cbn.
  destruct (String.eqb_spec (trim (searchUrl (view w))) ""); [contradiction|].
  cbn. rewrite Hreply. cbn.
  rewrite length_app, Nat.add_1_r. cbn [length].
  destruct (reply_lists backend (S (length (calls w)))) as [listsData|e]; cbn;
    rewrite <- !app_assoc; cbn; auto 15.
Qed.

(** X16. [handleRename] without a list to rename, or with a new name that
    is empty or white space, shows one error toast and does nothing else.
    Otherwise it sends the new name with the white space around it removed,
    under the identifier of the list; when the backend accepts, the dialog
    closes, its two cells are cleared and the lists are fetched once. *)
Theorem handleRename_behaviour (w : World) :
  (listToRename (view w) = None \/ trim (newListName (view w)) = "" ->
   exec (handleRename backend) w = add_toast blank_name_toast w) /\
  (forall target : List,
   listToRename (view w) = Some target ->
   trim (newListName (view w)) <> "" ->
   let request := updateList (id target) (trim (newListName (view w))) in
   let w' := exec (handleRename backend) w in
   match reply backend (length (calls w)) request with
   | Resolved _ =>
       calls w' = calls w ++ [request; getLists] /\
       renameDialogOpen (view w') = false /\
       listToRename (view w') = None /\
       newListName (view w') = "" /\
       isRenaming (view w') = false
   | Rejected _ =>
       calls w' = calls w ++ [request] /\
       isRenaming (view w') = false
   end).
Proof.
  split.
  - intros Hbad. run_handler. cbn.
    destruct (listToRename (view w)) as [target|]; [|reflexivity].
    destruct Hbad as [Hbad|Hbad]; [discriminate|]. rewrite Hbad. reflexivity.
  - intros target Htarget Hname. run_handler. cbn. rewrite Htarget.
    destruct (String.eqb_spec (trim (newListName (view w))) ""); [contradiction|].
    cbn. destruct (reply backend _ _) as [[]|e]; cbn; [|auto].
    destruct (reply_lists backend _); cbn; rewrite <- !app_assoc; cbn; auto 10.
Qed.

(** X17. [handleDelete] without a list to delete does nothing at all.
    With one it sends the deletion under the identifier of the list; when
    the backend accepts, the dialog closes, the target is cleared and the
    lists are fetched once; when it refuses, the target and the dialog stay
    and nothing is fetched. *)
Theorem handleDelete_behaviour (w : World) :
  (listToDelete (view w) = None -> exec (handleDelete backend) w = w) /\
  (forall target : List,
   listToDelete (view w) = Some target ->
   let w' := exec (handleDelete backend) w in
   match reply backend (length (calls w)) (deleteList (id target)) with
   | Resolved _ =>
       calls w' = calls w ++ [deleteList (id target); getLists] /\
       deleteDialogOpen (view w') = false /\
       listToDelete (view w') = None /\
       isDeleting (view w') = false
   | Rejected _ =>
       calls w' = calls w ++ [deleteList (id target)] /\
       deleteDialogOpen (view w') = deleteDialogOpen (view w) /\
       listToDelete (view w') = Some target /\
       isDeleting (view w') = false
   end).
Proof.
  split.
  - intros Hnone. run_handler. cbn. rewrite Hnone. reflexivity.
  - intros target Htarget. run_handler. cbn. rewrite Htarget. cbn.
    destruct (reply backend _ _) as [[]|e]; cbn; [|auto].
    destruct (reply_lists backend _); cbn; rewrite <- !app_assoc; cbn; auto 10.
Qed.

(** X18. Whatever the backend answers and whatever the state, a handler
    calls the backend at most twice and calls [setLists] at most once, and
    then with lists that the backend returned; if it called the backend at
    all, its busy flag is down when it ends. *)
Theorem handlers_footprint (w : World) :
  bounded_effects backend isLoading w (exec (handleGenerateList backend) w) /\
  bounded_effects backend isRenaming w (exec (handleRename backend) w) /\
  bounded_effects backend isDeleting w (exec (handleDelete backend) w).
Proof.
  assert (Hnil : forall A (l : list A), l = l ++ [])
    by (intros; symmetry; apply app_nil_r).
  unfold bounded_effects.
  split; [|split]; run_handler; cbn.
  - destruct (String.eqb (trim (searchUrl (view w))) ""); cbn;
      [quiet Hnil|].
    destruct (reply backend _ _) as [[]|e]; cbn; [|one_call Hnil].
    destruct (reply_lists backend _) as [listsData|e] eqn:Hlists; cbn;
      rewrite <- ?app_assoc; cbn; [refreshed Hnil Hlists | two_calls Hnil].
  - destruct (listToRename (view w)); cbn; [|quiet Hnil].
    destruct (String.eqb (trim (newListName (view w))) ""); cbn;
      [quiet Hnil|].
    destruct (reply backend _ _) as [[]|e]; cbn; [|one_call Hnil].
    destruct (reply_lists backend _) as [listsData|e] eqn:Hlists; cbn;
      rewrite <- ?app_assoc; cbn; [refreshed Hnil Hlists | two_calls Hnil].
  - destruct (listToDelete (view w)); cbn; [|quiet Hnil].
    destruct (reply backend _ _) as [[]|e]; cbn; [|one_call Hnil].
    destruct (reply_lists backend _) as [listsData|e] eqn:Hlists; cbn;
      rewrite <- ?app_assoc; cbn; [refreshed Hnil Hlists | two_calls Hnil].
Qed.

(** X19. [fetchSenders] stores the number of the senders returned that
    are enabled, and zero when the request fails. So the button that opens
    the generation dialog is disabled exactly when the request failed or no
    sender returned is enabled, and the count is at most the number of
    senders. *)
Theorem fetchSenders_button (reply : settled (list Sender.t)) (w : World) :
  let w' := exec (fetchSenders reply) w in
  calls w' = calls w ++ [getSenders] /\
  lists (view w') = lists (view w) /\
  enabledSendersCount (view w') =
    match reply with
    | Resolved sendersData =>
        Z.of_nat (length (List.filter Sender.enabled sendersData))
    | Rejected _ => 0
    end /\
  (generate_disabled (view w') = true <->
   match reply with
   | Resolved sendersData => Forall (fun s => Sender.enabled s = false) sendersData
   | Rejected _ => True
   end) /\
  match reply with
  | Resolved sendersData =>
      0 <= enabledSendersCount (view w') <= Z.of_nat (length sendersData)
  | Rejected _ => enabledSendersCount (view w') = 0
  end.
Proof.
  run_handler. cbn. destruct reply as [sendersData|e]; cbn.
  - unfold generate_disabled. cbn.
    assert (Hle : (length (List.filter Sender.enabled sendersData)
                   <= length sendersData)%nat).
    { pose proof (List.filter_length Sender.enabled sendersData). lia. }
    repeat split; try lia.
    + intros Hzero. apply Z.eqb_eq in Hzero.
      apply Forall_forall. intros s Hs.
      destruct (Sender.enabled s) eqn:Hon; [|reflexivity].
      apply list_elem_of_In in Hs.
      assert (Hin : In s (List.filter Sender.enabled sendersData)).
      { apply filter_In. auto. }
      destruct (List.filter Sender.enabled sendersData); [destruct Hin|].
      cbn [length] in Hzero. lia.
    + intros Hall. apply Z.eqb_eq.
      replace (List.filter Sender.enabled sendersData) with (@nil Sender.t);
        [reflexivity|].
      clear Hle. induction Hall as [|s rest Hoff _ IH]; [reflexivity|].
      cbn [List.filter]. rewrite Hoff. exact IH.
  - unfold generate_disabled. cbn. repeat split; auto.
Qed.

(** X20. The dialogs act on the row that was clicked: after
    [handleRenameClick] on a list, [handleRename] sends the name of that
    list, trimmed, under its identifier (or refuses a blank name), and after
    [handleDeleteClick], [handleDelete] sends the deletion of that list. *)
Theorem click_then_confirm (l : List) (w : World) :
  let renaming := exec (handleRename backend) (exec (handleRenameClick l) w) in
  let deleting := exec (handleDelete backend) (exec (handleDeleteClick l) w) in
  (trim (name l) <> "" ->
   exists rest, calls renaming = calls w ++ updateList (id l) (trim (name l)) :: rest) /\
  (trim (name l) = "" ->
   calls renaming = calls w /\ toasts renaming = toasts w ++ [blank_name_toast]) /\
  (exists rest, calls deleting = calls w ++ deleteList (id l) :: rest).
Proof.
  run_handler. cbn -[trim]. repeat split.
  - intros Hname.
    destruct (String.eqb_spec (trim (name l)) ""); [contradiction|]. cbn -[trim].
    destruct (reply backend _ _) as [[]|e]; cbn -[trim].
    + destruct (reply_lists backend _); cbn -[trim]; rewrite <- !app_assoc; cbn -[trim]; eauto.
    + eauto.
  - rewrite H. reflexivity.
  - rewrite H. reflexivity.
  - destruct (reply backend _ _) as [[]|e]; cbn -[trim].
    + destruct (reply_lists backend _); cbn -[trim]; rewrite <- !app_assoc; cbn -[trim]; eauto.
    + eauto.
Qed.

End HandlerMoreFacts.

(** ** The page of one list *)

Module ListDetailFacts.
Import Js Api State ListDetailPage.

Ltac run_page :=
  unfold finish, effect, fetchListData, set, toast, call, change, current,
    mbind, mret, St_bind, St_ret.

(** X21. [fetchListData] issues its two requests in any case and ends with
    both loading flags down. The list and its profiles are stored only when
    both requests resolve; when either is rejected, neither cell changes,
    the answer of the other request is dropped, and one error toast shows
    the reason of a rejected request. *)
Theorem fetchListData_all_or_nothing (replies : Replies) (id : string) (w : World) :
  let w' := finish (fetchListData replies id) w in
  calls w' = calls w ++ [getList id; getListProspects id] /\
  isLoading (cells w') = false /\
  isLoadingProfiles (cells w') = false /\
  match list_reply replies, prospects_reply replies with
  | Resolved listData, Resolved prospectsData =>
      listCell (cells w') = Some listData /\
      profiles (cells w') = prospectsData /\
      toasts w' = toasts w
  | _, _ =>
      listCell (cells w') = listCell (cells w) /\
      profiles (cells w') = profiles (cells w) /\
      exists e,
        (list_reply replies = Rejected e \/ prospects_reply replies = Rejected e) /\
        toasts w' = toasts w ++ [ListsPage.error_toast e "Failed to load list data"]
  end.
Proof.
  run_page. cbn.
  destruct (list_reply replies) as [listData|e1],
           (prospects_reply replies) as [prospectsData|e2]; cbn;
    rewrite <- ?app_assoc; cbn.
  - auto 10.
  - repeat split; eauto.
  - repeat split; eauto.
  - destruct (list_first replies); repeat split; eauto.
Qed.

(** X22. From the first render, the page shows the details, with as many
    profiles as were fetched, exactly when its identifier is not empty and
    both requests resolve. With a rejected request it shows "not found",
    even if the list itself was fetched; with an empty identifier it sends
    nothing and stays on the loading skeleton. *)
Theorem effect_screen (replies : Replies) (id : string) :
  let start := {| cells := initial; toasts := []; calls := [] |} in
  let w' := finish (effect replies id) start in
  (id = "" -> w' = start /\ screen (cells w') = LoadingSkeleton) /\
  (id <> "" ->
   screen (cells w') =
   match list_reply replies, prospects_reply replies with
   | Resolved listData, Resolved prospectsData =>
       Details listData (length prospectsData)
   | _, _ => NotFound
   end).
Proof.
  split.
  - intros ->. split; reflexivity.
  - intros Hid. run_page.
    destruct (String.eqb_spec id ""); [contradiction|]. cbn.
    destruct (list_reply replies), (prospects_reply replies); reflexivity.
Qed.

End ListDetailFacts.

(** ** The campaign dialog *)

Module CreateCampaignFacts.
Import Js Api State CreateCampaignModal.

Ltac run_modal :=
  unfold finish, effect, fetchData, handleSubmit, handleToggleList, reset,
    onSubmit, set, call, log, change, current, mbind, mret, St_bind, St_ret.

Lemma In_toggle (y x : string) (prev : list string) :
  In x (toggle y prev) <-> (x <> y /\ In x prev) \/ (x = y /\ ~ In y prev).
Proof.
  unfold toggle. destruct (ListsPage.includes prev y) eqn:Hin.
  - apply includes_In in Hin. rewrite filter_In, negb_true_iff, String.eqb_neq.
    split.
    + intros [Hx Hne]. left. auto.
    + intros [[Hne Hx]|[-> Hno]]; [auto | contradiction].
  - assert (Hno : ~ In y prev).
    { intros H. apply includes_In in H. congruence. }
    rewrite in_app_iff. cbn [In]. split.
    + intros [Hx|[<-|[]]]; [left | right; auto].
      split; [intros ->; contradiction | exact Hx].
    + intros [[_ Hx]|[-> _]]; auto.
Qed.

(** X23. Ticking a list in the dialog toggles its membership in the
    selection and touches no other: afterwards an identifier is selected
    exactly when it is another one that was selected, or the ticked one and
    that was not. A selection without repetition stays so, and ticking an
    unselected list twice gives the selection back as it was. *)
Theorem toggle_membership (y : string) (prev : list string) :
  (forall x, In x (toggle y prev) <->
             (x <> y /\ In x prev) \/ (x = y /\ ~ In y prev)) /\
  (List.NoDup prev -> List.NoDup (toggle y prev)) /\
  (~ In y prev -> toggle y (toggle y prev) = prev).
Proof.
  split; [intros x; apply In_toggle|]. split.
  - intros Hnodup. unfold toggle. destruct (ListsPage.includes prev y) eqn:Hin.
    + apply List.NoDup_filter. exact Hnodup.
    + apply NoDup_ListNoDup. apply NoDup_app. repeat split.
      * apply NoDup_ListNoDup. exact Hnodup.
      * intros x Hx Hy. apply list_elem_of_In in Hx.
        apply list_elem_of_In in Hy. destruct Hy as [<-|[]].
        apply includes_In in Hx. congruence.
      * apply NoDup_singleton.
  - intros Hno. unfold toggle at 2.
    destruct (ListsPage.includes prev y) eqn:Hin.
    { apply includes_In in Hin. contradiction. }
    unfold toggle.
    assert (Hyes : ListsPage.includes (prev ++ [y]) y = true).
    { apply includes_In, in_app_iff. right. left. reflexivity. }
    rewrite Hyes, List.filter_app. cbn [List.filter].
    rewrite String.eqb_refl. cbn [negb]. rewrite app_nil_r.
    clear Hin Hyes. induction prev as [|x prev IH]; [reflexivity|].
    cbn [List.filter].
    destruct (String.eqb_spec x y) as [->|Hne]; cbn [negb].
    + exfalso. apply Hno. left. reflexivity.
    + f_equal. apply IH. intros H. apply Hno. right. exact H.
Qed.

(** X24. [handleSubmit] hands the form to [onSubmit] exactly when the name,
    the sender and the message are not empty and at least one list is
    selected; it then empties these four cells and keeps the loaded lists
    and senders. With anything missing it does nothing at all. *)
Theorem handleSubmit_complete_or_nothing (w : World) :
  let v := cells w in
  let w' := finish handleSubmit w in
  (complete v = true <->
   name v <> "" /\ listIds v <> [] /\ profileId v <> "" /\ message v <> "") /\
  (complete v = false -> w' = w) /\
  (complete v = true ->
   submitted w' = submitted w ++
     [{| sub_name := name v; sub_listIds := listIds v;
         sub_profileId := profileId v; sub_message := message v |}] /\
   name (cells w') = "" /\ listIds (cells w') = [] /\
   profileId (cells w') = "" /\ message (cells w') = "" /\
   lists (cells w') = lists v /\ senderProfiles (cells w') = senderProfiles v /\
   calls w' = calls w).
Proof.
  intros v w'. subst v w'. split; [|split].
  - unfold complete. rewrite !andb_true_iff, !negb_true_iff, !String.eqb_neq.
    rewrite Nat.ltb_lt.
    assert (Hsome : (0 < length (listIds (cells w)))%nat <-> listIds (cells w) <> []).
    { destruct (listIds (cells w)); cbn [length]; split;
        try lia; try congruence; try discriminate. }
    rewrite Hsome. tauto.
  - intros Hno. run_modal. cbn. rewrite Hno. reflexivity.
  - intros Hyes. run_modal. cbn. rewrite Hyes. cbn. auto 10.
Qed.

(** X25. Opening the dialog fetches the lists and the senders together:
    both requests are issued; when both resolve the dialog holds the lists
    and, of the senders, the enabled ones only; when either is rejected it
    holds neither, whatever the other request returned. Closing the dialog
    empties the form, sends nothing and keeps what was loaded. *)
Theorem effect_loads_or_resets (replies : Replies) (w : World) :
  let opened := finish (effect replies true) w in
  let closed := finish (effect replies false) w in
  (calls opened = calls w ++ [getLists; getSenders] /\
   isLoadingData (cells opened) = false /\
   Forall (fun s => Sender.enabled s = true) (senderProfiles (cells opened)) /\
   match lists_reply replies, senders_reply replies with
   | Resolved listsData, Resolved sendersData =>
       lists (cells opened) = listsData /\
       senderProfiles (cells opened) = List.filter Sender.enabled sendersData
   | _, _ =>
       lists (cells opened) = [] /\ senderProfiles (cells opened) = []
   end) /\
  (calls closed = calls w /\
   name (cells closed) = "" /\ listIds (cells closed) = [] /\
   profileId (cells closed) = "" /\ message (cells closed) = "" /\
   lists (cells closed) = lists (cells w) /\
   senderProfiles (cells closed) = senderProfiles (cells w)).
Proof.
  split; [|run_modal; cbn; auto 10].
  run_modal. cbn.
  destruct (lists_reply replies) as [listsData|e1],
           (senders_reply replies) as [sendersData|e2]; cbn;
    rewrite <- ?app_assoc; cbn; repeat split; auto.
  apply Forall_forall. intros s Hs. apply list_elem_of_In, filter_In in Hs.
  apply Hs.
Qed.

End CreateCampaignFacts.

(** ** The page of the sender profiles *)

Module ProfilesFacts.
Import Js Api State ProfilesPage.

Ltac run_page :=
  unfold finish, handleUpdate, handleRename, handleAddProfile,
    handleToggleSender, handleRenameClick, fetchSenders, await_call,
    await_toggle, await_getSenders, set, toast, change, current,
    mbind, mret, St_bind, St_ret.

(** X26. [handleUpdate] sends the name without the white space around it,
    and sends the storage state, trimmed too, only when something other than
    white space was entered: with a blank box the body of the request has
    no [storage_state] member. [handleRename] never sends one. *)
Theorem update_payload (backend : Backend) (w : World) (target : Sender.t) :
  let v := cells w in
  (senderToUpdate v = Some target -> trim (updateName v) <> "" ->
   exists rest,
     calls (finish (handleUpdate backend) w) =
       calls w ++ updateSender (Sender.id target) (trim (updateName v))
                    (updateData v).2 :: rest) /\
  ((updateData v).2 = None <-> trim (updateStorageState v) = "") /\
  (forall fields,
     sender_body (trim (updateName v)) (updateData v).2 = JObj fields ->
     fields !! "name" = Some (JStr (trim (updateName v))) /\
     (fields !! "storage_state" = None <-> trim (updateStorageState v) = "") /\
     (trim (updateStorageState v) <> "" ->
      fields !! "storage_state" = Some (JStr (trim (updateStorageState v))))) /\
  (senderToRename v = Some target -> trim (newSenderName v) <> "" ->
   exists rest,
     calls (finish (handleRename backend) w) =
       calls w ++ updateSender (Sender.id target) (trim (newSenderName v)) None
                  :: rest).
Proof.
  intros v. subst v. repeat split.
  - intros Htarget Hname. run_page. cbn -[trim updateData]. rewrite Htarget.
    destruct (String.eqb_spec (trim (updateName (cells w))) ""); [contradiction|].
    cbn -[trim updateData].
    destruct (reply backend _ _) as [[]|e]; cbn -[trim updateData]; [|eauto].
    destruct (senders_reply backend _); cbn -[trim updateData];
      rewrite <- ?app_assoc; cbn -[trim updateData]; eauto.
  - unfold updateData. cbn [snd].
    destruct (String.eqb_spec (trim (updateStorageState (cells w))) "");
      [auto | discriminate].
  - unfold updateData. cbn [snd]. intros Hblank. rewrite Hblank. reflexivity.
  - unfold sender_body, updateData, optional_field in H. cbn [snd] in H.
    destruct (String.eqb (trim (updateStorageState (cells w))) "");
      injection H as <-; by simplify_map_eq.
  - unfold sender_body, updateData, optional_field in H. cbn [snd] in H.
    intros Hnone.
    destruct (String.eqb_spec (trim (updateStorageState (cells w))) "");
      [assumption|].
    injection H as <-. by simplify_map_eq.
  - unfold sender_body, updateData, optional_field in H. cbn [snd] in H.
    intros Hblank. rewrite Hblank in H. cbn in H.
    injection H as <-. by simplify_map_eq.
  - unfold sender_body, updateData, optional_field in H. cbn [snd] in H.
    intros Hfull.
    destruct (String.eqb_spec (trim (updateStorageState (cells w))) "");
      [contradiction|].
    injection H as <-. by simplify_map_eq.
  - intros Htarget Hname. run_page. cbn -[trim]. rewrite Htarget.
    destruct (String.eqb_spec (trim (newSenderName (cells w))) ""); [contradiction|].
    cbn -[trim].
    destruct (reply backend _ _) as [[]|e]; cbn -[trim]; [|eauto].
    destruct (senders_reply backend _); cbn -[trim];
      rewrite <- ?app_assoc; cbn -[trim]; eauto.
Qed.

(** X27. [handleToggleSender] ignores the state it is told the sender is in:
    when the backend accepts, the senders are fetched once and then a
    success toast names the state that the backend answered, after the
    error toast of a failed fetch if there is one; when it refuses, nothing
    is fetched, the profiles stay and one error toast is shown. *)
Theorem handleToggleSender_behaviour
  (backend : Backend) (senderId : string) (currentEnabled : bool) (w : World) :
  let w' := finish (handleToggleSender backend senderId currentEnabled) w in
  finish (handleToggleSender backend senderId (negb currentEnabled)) w = w' /\
  match toggle_reply backend (length (calls w)) senderId with
  | Resolved enabled =>
      let done :=
        success ("Sender " +:+ (if enabled then "enabled" else "disabled")
                 +:+ " successfully") in
      calls w' = calls w ++ [toggleSender senderId; getSenders] /\
      isLoading (cells w') = false /\
      match senders_reply backend (S (length (calls w))) with
      | Resolved sendersData =>
          profiles (cells w') = sendersData /\ toasts w' = toasts w ++ [done]
      | Rejected e =>
          profiles (cells w') = profiles (cells w) /\
          toasts w' = toasts w ++
            [ListsPage.error_toast e "Failed to load sender profiles"; done]
      end
  | Rejected e =>
      calls w' = calls w ++ [toggleSender senderId] /\
      cells w' = cells w /\
      toasts w' = toasts w ++
        [ListsPage.error_toast e "Failed to toggle sender status"]
  end.
Proof.
  split; [reflexivity|]. run_page. cbn.
  destruct (toggle_reply backend _ _) as [enabled|e]; cbn; [|auto].
  rewrite length_app, Nat.add_1_r. cbn [length].
  destruct (senders_reply backend _) as [sendersData|e]; cbn;
    rewrite <- ?app_assoc; cbn; auto 10.
Qed.

(** X29. [handleAddProfile] keeps the dialog open when the backend refuses:
    no cell changes, nothing is fetched and one error toast is shown. When
    the backend accepts, the dialog closes and the senders are fetched
    once. *)
Theorem handleAddProfile_behaviour
  (backend : Backend) (name : string) (storage_state : option string) (w : World) :
  let request := createSender name storage_state in
  let w' := finish (handleAddProfile backend name storage_state) w in
  match reply backend (length (calls w)) request with
  | Resolved _ =>
      calls w' = calls w ++ [request; getSenders] /\
      isModalOpen (cells w') = false /\
      isLoading (cells w') = false
  | Rejected e =>
      calls w' = calls w ++ [request] /\
      cells w' = cells w /\
      toasts w' = toasts w ++ [ListsPage.error_toast e "Failed to add sender profile"]
  end.
Proof.
  run_page. cbn. destruct (reply backend _ _) as [[]|e]; cbn; [|auto].
  destruct (senders_reply backend _); cbn; rewrite <- ?app_assoc; cbn; auto.
Qed.

End ProfilesFacts.

(** ** The further properties at the sample data *)

(** X1 on a 200 answer with an empty array. *)
Lemma apiRequest_resolves_iff_witness :
  apiRequest Samples.with_key Samples.v8 (fun _ => Resolved MoreSamples.ok_lists)
    "/lists" (init "GET" None) = Resolved (JArr []).
Proof.
  apply (apiRequest_resolves_iff Samples.with_key Samples.v8
           (fun _ => Resolved MoreSamples.ok_lists) "/lists" (init "GET" None)
           (JArr [])).
  exists MoreSamples.ok_lists. repeat split.
Defined.

(** X2 on a network failure and on a 429. *)
Lemma apiRequest_rejections_witness :
  apiRequest Samples.with_key Samples.v8
    (fun _ => Rejected (ErrorObj "Failed to fetch")) "/lists" (init "GET" None)
  = Rejected (ErrorObj "Failed to fetch") /\
  exists message,
    error_of Samples.v8 Samples.rate_limited = ErrorObj message /\
    message_or (error_of Samples.v8 Samples.rate_limited) "Failed to load lists"
    = message.
Proof.
  split.
  - exact (proj1 (apiRequest_rejections Samples.with_key Samples.v8
                    (fun _ => Rejected (ErrorObj "Failed to fetch")) "/lists"
                    (init "GET" None)) _ eq_refl).
  - refine (proj2 (proj2 (apiRequest_rejections Samples.with_key Samples.v8
                    (fun _ => Resolved Samples.rate_limited) "/lists"
                    (init "GET" None))) _ "Failed to load lists" eq_refl _).
    discriminate.
Defined.

(** X3 on a caller that passes a content type and a tracing header. *)
Lemma apiRequest_request_caller_headers_witness :
  let h := req_headers (apiRequest_request Samples.with_key "/lists"
                          MoreSamples.with_caller_headers) in
  h !! "X-API-KEY" = Some "s3cret" /\
  h !! "Content-Type" = Some "text/plain" /\
  h !! "X-Trace" = Some "1".
Proof.
  intros h.
  destruct (apiRequest_request_caller_headers Samples.with_key "/lists"
              MoreSamples.with_caller_headers) as (Hkey & _ & Hct & Hother).
  fold h in Hkey, Hct, Hother. split; [|split].
  - apply Hkey. discriminate.
  - apply Hct. reflexivity.
  - rewrite Hother by discriminate. reflexivity.
Defined.

(** X4 on [api.getLists()]. *)
Lemma request_of_method_and_body_witness :
  req_body (request_of Samples.with_key getLists) = None.
Proof.
  apply (proj1 (proj2 (proj2
           (request_of_method_and_body Samples.with_key getLists)))).
  left. reflexivity.
Defined.

(** X6 on the sample list: no longer processing at ten minutes, hence not
    at eleven; processing after five seconds, hence after one. *)
Lemma isListProcessing_antitone_witness :
  isListProcessing Samples.clock (Samples.midnight + 660000) Samples.fresh = false /\
  isListProcessing Samples.clock (Samples.midnight + 1000) Samples.fresh = true.
Proof.
  split.
  - apply (proj2 (isListProcessing_antitone Samples.clock
                    (Samples.midnight + 600000) (Samples.midnight + 660000)
                    Samples.fresh ltac:(vm_compute; discriminate))).
    vm_compute. reflexivity.
  - apply (proj1 (isListProcessing_antitone Samples.clock
                    (Samples.midnight + 1000) (Samples.midnight + 5000)
                    Samples.fresh ltac:(vm_compute; discriminate))).
    vm_compute. reflexivity.
Defined.

(** X7 on the sample list. *)
Lemma isListProcessing_expires_witness :
  exists deadline : Z,
    isListProcessing Samples.clock deadline Samples.fresh = false.
Proof.
  destruct (isListProcessing_expires Samples.clock Samples.fresh) as [deadline H].
  exists deadline. apply H. apply Z.le_refl.
Defined.

(** X8 on an answer that holds a processing list which is not tracked. *)
Lemma stillProcessing_false_iff_witness :
  stillProcessing Samples.clock ["a"] Samples.midnight [Samples.count_only] = false /\
  stillProcessing Samples.clock ["zzz"] Samples.midnight [Samples.fresh] = false.
Proof.
  split.
  - apply (proj1 (stillProcessing_false_iff Samples.clock ["a"] Samples.midnight
                    [Samples.count_only])).
    intros l [<-|[]] _. reflexivity.
  - apply (proj2 (proj2 (stillProcessing_false_iff Samples.clock ["zzz"]
                           Samples.midnight [Samples.fresh]))).
    intros l [<-|[]] [H|[]]. discriminate H.
Defined.

(** X9 on the sample page: a tick, then the cleanup. *)
Lemma run_closure_witness :
  let w := run Samples.clock [TimerFires; Cleanup] Samples.polling in
  processingListIds w = ["a"] /\ pollInterval w = None /\ isPolling w = false.
Proof.
  intros w.
  destruct (run_closure Samples.clock [TimerFires; Cleanup] Samples.polling)
    as (Hids & _ & _ & Hclear).
  fold w in Hids, Hclear. split; [rewrite Hids; reflexivity|].
  apply Hclear. reflexivity.
Defined.

(** X12 on the sample page, cleaned up between two ticks. *)
Lemma cleanup_is_final_witness :
  let w' :=
    run Samples.clock
      [TimerFires; FetchSettles (Resolved [Samples.populated]) (Samples.midnight + 5000)]
      (cleanup Samples.polling) in
  lists (view w') = [Samples.fresh] /\ calls w' = [].
Proof.
  intros w'.
  destruct (cleanup_is_final Samples.clock
              [TimerFires;
               FetchSettles (Resolved [Samples.populated]) (Samples.midnight + 5000)]
              Samples.polling eq_refl) as (Hv & _ & Hc & _).
  fold w' in Hv, Hc. rewrite Hv, Hc. split; reflexivity.
Defined.

(** X13 on the sample page: eleven minutes on, the list comes back still
    empty. *)
Lemma stale_answer_settles_witness :
  let w := step Samples.clock TimerFires Samples.polling in
  let w' :=
    step Samples.clock
      (FetchSettles (Resolved [Samples.fresh]) (Samples.midnight + 660000)) w in
  lists (view w') = [Samples.fresh] /\ isPolling w' = false.
Proof.
  intros w w'.
  destruct (stale_answer_settles Samples.clock w [Samples.fresh]
              (Samples.midnight + 660000)) as (Hv & _ & Hf).
  - vm_compute. discriminate.
  - intros l s t [<-|[]] [= <-] [= <-]. vm_compute. discriminate.
  - fold w' in Hv, Hf. rewrite Hv. split; [reflexivity | exact Hf].
Defined.

(** X14 on a form whose URL is two spaces. *)
Lemma handleGenerateList_blank_url_witness :
  calls (exec (handleGenerateList MoreSamples.accepting) MoreSamples.blank_form) = [] /\
  length (toasts (exec (handleGenerateList MoreSamples.accepting)
                    MoreSamples.blank_form)) = 1%nat.
Proof.
  rewrite (handleGenerateList_blank_url MoreSamples.accepting MoreSamples.blank_form
             eq_refl).
  split; reflexivity.
Defined.

(** X15 on the filled-in form, with the fetch that follows failing. *)
Lemma handleGenerateList_accepted_witness :
  let w' := exec (handleGenerateList MoreSamples.accepting_then_down)
              Samples.filled_in in
  searchUrl (view w') = "" /\
  lists (view w') = [Samples.fresh] /\
  length (toasts w') = 2%nat.
Proof.
  intros w'.
  destruct (handleGenerateList_accepted MoreSamples.accepting_then_down
              Samples.filled_in) as (_ & (_ & Hurl & _) & _ & Hlists & _ & Htoasts).
  - vm_compute. discriminate.
  - reflexivity.
  - fold w' in Hurl, Hlists, Htoasts. rewrite Hurl, Hlists, Htoasts.
    repeat split.
Defined.

(** X16 on the filled-in page: the name goes out trimmed. *)
Lemma handleRename_behaviour_witness :
  calls (exec (handleRename MoreSamples.accepting) Samples.filled_in)
  = [updateList "a" "Engineers EU"; getLists] /\
  exec (handleRename MoreSamples.accepting) (mounted [])
  = add_toast ListsPageRest.blank_name_toast (mounted []).
Proof.
  split.
  - exact (proj1 (proj2 (handleRename_behaviour MoreSamples.accepting
                           Samples.filled_in) Samples.fresh eq_refl
                    ltac:(vm_compute; discriminate))).
  - apply (proj1 (handleRename_behaviour MoreSamples.accepting (mounted []))).
    left. reflexivity.
Defined.

(** X17 on a page with nothing picked, and on the filled-in page. *)
Lemma handleDelete_behaviour_witness :
  exec (handleDelete MoreSamples.accepting) (mounted []) = mounted [] /\
  calls (exec (handleDelete MoreSamples.accepting) Samples.filled_in)
  = [deleteList "a"; getLists].
Proof.
  split.
  - exact (proj1 (handleDelete_behaviour MoreSamples.accepting (mounted []))
             eq_refl).
  - exact (proj1 (proj2 (handleDelete_behaviour MoreSamples.accepting
                           Samples.filled_in) Samples.fresh eq_refl)).
Defined.

(** X19 on a backend with the disabled sender only, and on one with an
    enabled and a disabled sender. *)
Lemma fetchSenders_button_witness :
  ListsPageRest.generate_disabled
    (view (exec (ListsPageRest.fetchSenders (Resolved [MoreSamples.bob]))
             (mounted []))) = true /\
  enabledSendersCount
    (view (exec (ListsPageRest.fetchSenders
                   (Resolved [MoreSamples.alice; MoreSamples.bob]))
             (mounted []))) = 1.
Proof.
  split.
  - apply (proj1 (proj2 (proj2 (proj2
             (fetchSenders_button (Resolved [MoreSamples.bob]) (mounted [])))))).
    repeat constructor.
  - rewrite (proj1 (proj2 (proj2
               (fetchSenders_button (Resolved [MoreSamples.alice; MoreSamples.bob])
                  (mounted []))))).
    reflexivity.
Defined.

(** X20 on the sample list. *)
Lemma click_then_confirm_witness :
  exists rest,
    calls (exec (handleRename MoreSamples.accepting)
             (exec (ListsPageRest.handleRenameClick Samples.fresh) (mounted [])))
    = updateList "a" "Engineers" :: rest.
Proof.
  apply (proj1 (click_then_confirm MoreSamples.accepting Samples.fresh (mounted []))).
  vm_compute. discriminate.
Defined.

(** X22 on the page of list "a", and on a page without identifier. *)
Lemma effect_screen_witness :
  let start := {| ListDetailPage.cells := ListDetailPage.initial;
                  ListDetailPage.toasts := [];
                  ListDetailPage.calls := [] |} in
  ListDetailPage.screen
    (ListDetailPage.cells
       (State.finish (ListDetailPage.effect MoreSamples.both_resolve "a") start))
  = ListDetailPage.Details Samples.populated 1 /\
  ListDetailPage.screen
    (ListDetailPage.cells
       (State.finish (ListDetailPage.effect MoreSamples.prospects_fail "a") start))
  = ListDetailPage.NotFound /\
  ListDetailPage.screen
    (ListDetailPage.cells
       (State.finish (ListDetailPage.effect MoreSamples.both_resolve "") start))
  = ListDetailPage.LoadingSkeleton.
Proof.
  intros start. split; [|split].
  - apply (proj2 (ListDetailFacts.effect_screen MoreSamples.both_resolve "a")).
    discriminate.
  - apply (proj2 (ListDetailFacts.effect_screen MoreSamples.prospects_fail "a")).
    discriminate.
  - apply (proj1 (ListDetailFacts.effect_screen MoreSamples.both_resolve "")).
    reflexivity.
Defined.

(** X23 on a selection of two lists. *)
Lemma toggle_membership_witness :
  CreateCampaignModal.toggle "c"
    (CreateCampaignModal.toggle "c" ["a"; "b"]) = ["a"; "b"] /\
  List.NoDup (CreateCampaignModal.toggle "a" ["a"; "b"]).
Proof.
  split.
  - apply (proj2 (proj2 (CreateCampaignFacts.toggle_membership "c" ["a"; "b"]))).
    intros [H|[H|[]]]; discriminate H.
  - apply (proj1 (proj2 (CreateCampaignFacts.toggle_membership "a" ["a"; "b"]))).
    repeat constructor.
    + intros [H|[]]. discriminate H.
    + intros [].
Defined.

(** X24 on the filled-in dialog. *)
Lemma handleSubmit_complete_or_nothing_witness :
  length (CreateCampaignModal.submitted
            (State.finish CreateCampaignModal.handleSubmit MoreSamples.campaign_form))
  = 1%nat /\
  CreateCampaignModal.name
    (CreateCampaignModal.cells
       (State.finish CreateCampaignModal.handleSubmit MoreSamples.campaign_form))
  = "".
Proof.
  destruct (proj2 (proj2 (CreateCampaignFacts.handleSubmit_complete_or_nothing
                            MoreSamples.campaign_form)) eq_refl)
    as (Hsub & Hname & _).
  rewrite Hsub, Hname. split; reflexivity.
Defined.

(** X26 on the update dialog with a blank storage box. *)
Lemma update_payload_witness :
  exists rest,
    ProfilesPage.calls
      (State.finish (ProfilesPage.handleUpdate MoreSamples.profiles_backend)
         MoreSamples.updating)
    = updateSender "s1" "Alice B" None :: rest.
Proof.
  apply (proj1 (ProfilesFacts.update_payload MoreSamples.profiles_backend
                  MoreSamples.updating MoreSamples.alice)).
  - reflexivity.
  - vm_compute. discriminate.
Defined.
